(** * MS5611 barometric pressure sensor driver

    A shallow embedding of [MS5611.h] / [MS5611.cpp] and the properties of
    the driver's register access, calibration load, conversion protocol and
    fixed-point compensation arithmetic.

    Conventions of the embedding.
    - C++ integers are [Z]; every conversion and every arithmetic operation
      is followed by the wrap-around of the type the C++ expression has
      ([to_uint8], [to_int32], ...).  Signed overflow, undefined in C++, is
      modelled by the two's-complement wrap-around the 8- and 32-bit
      targets of the Arduino tool chain produce; [int32_t] arithmetic is
      32 bits wide on all of them ([long] on AVR, [int] elsewhere).
    - [/] on C++ integers truncates toward zero: [Z.quot].
    - The [Wire] object and [delay] belong to the Arduino core, not to this
      repository.  They are modelled by a log of the calls the driver makes
      and by an arbitrary function [answer] that gives what [Wire.read()]
      returns after a given sequence of calls.
    - A [double] that holds an [int32_t] divided by 100 is modelled by the
      exact rational.  IEEE binary64 is assumed for [double]: the conversion
      of an [int32_t] and the division by [pow(2, 31)] are then exact.
    - [getAltitude] and [getSeaLevel] compute in [double]: there the values
      are the binary64 numbers of [SpecFloat] and [*], [-], [/] are its
      correctly rounded operations.  [pow] belongs to the C library, not to
      this repository; the two functions take it as a parameter, and the
      statements assume of it what Annex F of the C standard fixes at the
      bases 1 and +0. *)

From Stdlib Require Import ZArith QArith Qabs Lia List Bool.
From Stdlib Require Import Floats.SpecFloat.
From stdpp Require Import base list.
Import ListNotations.

Local Open Scope Z_scope.

(** ** Fixed-width integers *)

Definition wrap_unsigned (w z : Z) : Z := z mod 2 ^ w.
Definition wrap_signed (w z : Z) : Z :=
  (z + 2 ^ (w - 1)) mod 2 ^ w - 2 ^ (w - 1).

Definition to_uint8 : Z -> Z := wrap_unsigned 8.
Definition to_uint16 : Z -> Z := wrap_unsigned 16.
Definition to_uint32 : Z -> Z := wrap_unsigned 32.
Definition to_int32 : Z -> Z := wrap_signed 32.
Definition to_int64 : Z -> Z := wrap_signed 64.

Definition is_uint8 (z : Z) : Prop := 0 <= z < 2 ^ 8.
Definition is_uint16 (z : Z) : Prop := 0 <= z < 2 ^ 16.
Definition is_uint24 (z : Z) : Prop := 0 <= z < 2 ^ 24.
Definition is_int32 (z : Z) : Prop := - 2 ^ 31 <= z < 2 ^ 31.
Definition is_int64 (z : Z) : Prop := - 2 ^ 63 <= z < 2 ^ 63.

#[global] Instance is_uint8_dec (z : Z) : Decision (is_uint8 z).
Proof. unfold is_uint8. apply _. Defined.
#[global] Instance is_uint16_dec (z : Z) : Decision (is_uint16 z).
Proof. unfold is_uint16. apply _. Defined.
#[global] Instance is_uint24_dec (z : Z) : Decision (is_uint24 z).
Proof. unfold is_uint24. apply _. Defined.
#[global] Instance is_int32_dec (z : Z) : Decision (is_int32 z).
Proof. unfold is_int32. apply _. Defined.
#[global] Instance is_int64_dec (z : Z) : Decision (is_int64 z).
Proof. unfold is_int64. apply _. Defined.

(** ** MS5611.h: constants and the oversampling enumeration *)

Definition MS5611_ADDRESS : Z := 0x77.
Definition MS5611_ADC_READ : Z := 0x00.
Definition MS5611_RESET : Z := 0x1E.
Definition MS5611_CONV_D1 : Z := 0x40.
Definition MS5611_CONV_D2 : Z := 0x50.
Definition MS5611_READ_PROM : Z := 0xA2.

(** [enum MS5611_osr] is an unscoped enumeration: a value of the type is an
    integer, and [setOversampling] has a [default:] arm for the integers that
    are none of the five enumerators. *)
Definition ULTRA_HIGH_RES : Z := 0x08.
Definition HIGH_RES : Z := 0x06.
Definition STANDARD : Z := 0x04.
Definition LOW_POWER : Z := 0x02.
Definition ULTRA_LOW_POWER : Z := 0x00.

Definition is_osr (v : Z) : Prop :=
  v = ULTRA_LOW_POWER \/ v = LOW_POWER \/ v = STANDARD \/
  v = HIGH_RES \/ v = ULTRA_HIGH_RES.

#[global] Instance is_osr_dec (v : Z) : Decision (is_osr v).
Proof. unfold is_osr. apply _. Defined.

(** ** The driver object *)

Record MS5611 : Type := mkMS5611 {
  filterCoefficient : list Z;   (* uint16_t filterCoefficient[6] *)
  counter : Z;                  (* uint8_t *)
  userOversamplingRate : Z;     (* uint8_t *)
  temperature2 : Z;             (* int32_t *)
  offset2 : Z;                  (* int64_t *)
  sensitivity2 : Z;             (* int64_t *)
  osr : Z                       (* MS5611_osr, never read or written *)
}.

Definition with_filterCoefficient (v : list Z) (d : MS5611) : MS5611 :=
  mkMS5611 v (counter d) (userOversamplingRate d) (temperature2 d)
           (offset2 d) (sensitivity2 d) (osr d).
Definition with_counter (v : Z) (d : MS5611) : MS5611 :=
  mkMS5611 (filterCoefficient d) v (userOversamplingRate d) (temperature2 d)
           (offset2 d) (sensitivity2 d) (osr d).
Definition with_userOversamplingRate (v : Z) (d : MS5611) : MS5611 :=
  mkMS5611 (filterCoefficient d) (counter d) v (temperature2 d)
           (offset2 d) (sensitivity2 d) (osr d).
Definition with_temperature2 (v : Z) (d : MS5611) : MS5611 :=
  mkMS5611 (filterCoefficient d) (counter d) (userOversamplingRate d) v
           (offset2 d) (sensitivity2 d) (osr d).
Definition with_offset2 (v : Z) (d : MS5611) : MS5611 :=
  mkMS5611 (filterCoefficient d) (counter d) (userOversamplingRate d)
           (temperature2 d) v (sensitivity2 d) (osr d).
Definition with_sensitivity2 (v : Z) (d : MS5611) : MS5611 :=
  mkMS5611 (filterCoefficient d) (counter d) (userOversamplingRate d)
           (temperature2 d) (offset2 d) v (osr d).

(** ** The Arduino core as seen by the driver *)

Inductive Call : Type :=
| CallBegin                               (* Wire.begin() *)
| CallBeginTransmission (address : Z)     (* Wire.beginTransmission(a) *)
| CallWrite (byte : Z)                    (* Wire.write(b) *)
| CallEndTransmission                     (* Wire.endTransmission() *)
| CallRequestFrom (address quantity : Z)  (* Wire.requestFrom(a, n) *)
| CallRead                                (* Wire.read() *)
| CallDelay (ms : Z).                     (* delay(ms) *)

(** [calls] is the log, oldest call first.  [answer cs] is the [int] that a
    [Wire.read()] returns when [cs] are the calls made before it; the driver
    never changes it. *)
Record Bus : Type := mkBus {
  calls : list Call;
  answer : list Call -> Z
}.

Record State : Type := mkState {
  self : MS5611;
  wire : Bus
}.

(** ** A state monad for the member functions *)

Definition M (A : Type) : Type := State -> A * State.

Definition ret {A : Type} (a : A) : M A := fun s => (a, s).
Definition bind {A B : Type} (m : M A) (f : A -> M B) : M B :=
  fun s => let (a, s') := m s in f a s'.

Notation "x <- m ;; k" := (bind m (fun x => k))
  (at level 100, m at next level, right associativity).
Notation "m ;;; k" := (bind m (fun _ => k))
  (at level 100, right associativity).

Definition field {A : Type} (proj : MS5611 -> A) : M A :=
  fun s => (proj (self s), s).
Definition assign (upd : MS5611 -> MS5611) : M unit :=
  fun s => (tt, mkState (upd (self s)) (wire s)).
Definition when (c : bool) (m : M unit) : M unit :=
  if c then m else ret tt.

Definition run {A : Type} (m : M A) (s : State) : A := fst (m s).
Definition exec {A : Type} (m : M A) (s : State) : State := snd (m s).

(** [for (uint8_t i = from; cond i; i++) body].  The counter is a [uint8_t]:
    a loop that has not left after [fuel] = 256 iterations has seen every
    value of its counter. *)
Fixpoint for_uint8 (fuel : nat) (i : Z) (cond : Z -> bool) (body : Z -> M unit)
  : M unit :=
  match fuel with
  | O => ret tt
  | S fuel' =>
      if cond i then body i ;;; for_uint8 fuel' (to_uint8 (i + 1)) cond body
      else ret tt
  end.

Definition log_call (c : Call) : M unit :=
  fun s => (tt, mkState (self s)
                        (mkBus (calls (wire s) ++ [c]) (answer (wire s)))).

Definition Wire_begin : M unit := log_call CallBegin.
Definition Wire_beginTransmission (address : Z) : M unit :=
  log_call (CallBeginTransmission address).
Definition Wire_write (byte : Z) : M unit := log_call (CallWrite (to_uint8 byte)).
Definition Wire_endTransmission : M unit := log_call CallEndTransmission.
Definition Wire_requestFrom (address quantity : Z) : M unit :=
  log_call (CallRequestFrom address quantity).
Definition Wire_read : M Z :=
  fun s => (answer (wire s) (calls (wire s)),
            mkState (self s)
                    (mkBus (calls (wire s) ++ [CallRead]) (answer (wire s)))).
Definition delay (ms : Z) : M unit := log_call (CallDelay ms).

(** ** MS5611.cpp: register access *)

Definition readRegister16 (reg : Z) : M Z :=
  Wire_beginTransmission MS5611_ADDRESS ;;;
  Wire_write reg ;;;
  Wire_endTransmission ;;;
  Wire_requestFrom MS5611_ADDRESS 2 ;;;
  r <- Wire_read ;; let valueHigh := to_uint8 r in
  r <- Wire_read ;; let valueLow := to_uint8 r in
  let value := to_uint16 (Z.lor (Z.shiftl valueHigh 8) valueLow) in
  ret value.

Definition readRegister24 (reg : Z) : M Z :=
  Wire_beginTransmission MS5611_ADDRESS ;;;
  Wire_write reg ;;;
  Wire_endTransmission ;;;
  Wire_requestFrom MS5611_ADDRESS 2 ;;;
  r <- Wire_read ;; let valueXbyte := to_uint8 r in
  r <- Wire_read ;; let valueHigh := to_uint8 r in
  r <- Wire_read ;; let valueLow := to_uint8 r in
  let value :=
    to_uint32 (Z.lor (Z.lor (Z.shiftl (to_int32 valueXbyte) 16)
                            (Z.shiftl (to_int32 valueHigh) 8))
                     valueLow) in
  ret value.

(** ** MS5611.cpp: configuration, reset and calibration *)

Definition setOversampling (osr : Z) : M unit :=
  (if osr =? ULTRA_LOW_POWER then assign (with_counter 1)
   else if osr =? LOW_POWER then assign (with_counter 2)
   else if osr =? STANDARD then assign (with_counter 3)
   else if osr =? HIGH_RES then assign (with_counter 5)
   else if osr =? ULTRA_HIGH_RES then assign (with_counter 10)
   else ret tt) ;;;
  assign (with_userOversamplingRate (to_uint8 osr)).

Definition getOversampling : M Z :=
  r <- field userOversamplingRate ;;
  ret (to_uint8 r).

Definition performReset : M unit :=
  Wire_beginTransmission MS5611_ADDRESS ;;;
  Wire_write MS5611_RESET ;;;
  Wire_endTransmission.

Definition getCalibrationData : M unit :=
  for_uint8 256 0 (fun offset => offset <? 6) (fun offset =>
    v <- readRegister16 (to_uint8 (MS5611_READ_PROM + offset * 2)) ;;
    C <- field filterCoefficient ;;
    assign (with_filterCoefficient (<[Z.to_nat offset := v]> C))).

Definition begin (osr : Z) : M bool :=
  Wire_begin ;;;
  performReset ;;;
  setOversampling osr ;;;
  delay 100 ;;;
  getCalibrationData ;;;
  ret true.

(** ** MS5611.cpp: conversions *)

Definition readRawTemperature : M Z :=
  Wire_beginTransmission MS5611_ADDRESS ;;;
  rate <- field userOversamplingRate ;;
  Wire_write (MS5611_CONV_D2 + rate) ;;;
  Wire_endTransmission ;;;
  c <- field counter ;;
  delay c ;;;
  readRegister24 MS5611_ADC_READ.

Definition readRawPressure : M Z :=
  Wire_beginTransmission MS5611_ADDRESS ;;;
  rate <- field userOversamplingRate ;;
  Wire_write (MS5611_CONV_D1 + rate) ;;;
  Wire_endTransmission ;;;
  c <- field counter ;;
  delay c ;;;
  readRegister24 MS5611_ADC_READ.

(** ** MS5611.cpp: compensation *)

(** [temperature2 = (dT * dT) / pow(2, 31)]: the product is an [int32_t];
    it is converted to [double], divided by 2^31 and the quotient, which lies
    in the interval from -1 to 1, is truncated toward zero by the assignment
    to the [int32_t] field. *)
Definition readTemperature (compensation : bool) : M Q :=
  D2 <- readRawTemperature ;;
  C <- field filterCoefficient ;;
  let dT :=
    to_int32 (to_uint32 (D2 - to_uint32 (to_uint32 (C !!! 4%nat) * 256))) in
  let temperature :=
    to_int32 (to_int64 (2000 + to_int64 (to_int64 dT * (C !!! 5%nat))
                                 `quot` 8388608)) in
  assign (with_temperature2 0) ;;;
  when compensation
    (t2 <- field temperature2 ;;
     when (t2 <? 2000)
       (assign (with_temperature2
                  (to_int32 (to_int32 (dT * dT) `quot` 2 ^ 31))))) ;;;
  t2 <- field temperature2 ;;
  let temperature := to_int32 (temperature - t2) in
  ret (Qmake temperature 100).

Definition readPressure (compensation : bool) : M Z :=
  D1 <- readRawPressure ;;
  D2 <- readRawTemperature ;;
  C <- field filterCoefficient ;;
  let dT :=
    to_int32 (to_uint32 (D2 - to_uint32 (to_uint32 (C !!! 4%nat) * 256))) in
  let offset :=
    to_int64 (to_int64 (to_int64 (C !!! 1%nat) * 65536)
              + to_int64 (to_int64 (C !!! 3%nat) * dT) `quot` 128) in
  let sensitivity :=
    to_int64 (to_int64 (to_int64 (C !!! 0%nat) * 32768)
              + to_int64 (to_int64 (C !!! 2%nat) * dT) `quot` 256) in
  os <-
    (if compensation then
       let temperature :=
         to_int32 (to_int64 (2000 + to_int64 (to_int64 dT * (C !!! 5%nat))
                                      `quot` 8388608)) in
       assign (with_offset2 0) ;;;
       assign (with_sensitivity2 0) ;;;
       when (temperature <? 2000)
         (assign (with_offset2
            (to_int64
               (to_int32 (5 * to_int32 (to_int32 (temperature - 2000)
                                        * to_int32 (temperature - 2000)))
                `quot` 2))) ;;;
          assign (with_sensitivity2
            (to_int64
               (to_int32 (5 * to_int32 (to_int32 (temperature - 2000)
                                        * to_int32 (temperature - 2000)))
                `quot` 4)))) ;;;
       when (temperature <? -1500)
         (o2 <- field offset2 ;;
          assign (with_offset2
            (to_int64
               (o2 + to_int32 (7 * to_int32 (to_int32 (temperature + 1500)
                                             * to_int32 (temperature + 1500))))))
          ;;;
          s2 <- field sensitivity2 ;;
          assign (with_sensitivity2
            (to_int64
               (s2 + to_int32 (11 * to_int32 (to_int32 (temperature + 1500)
                                              * to_int32 (temperature + 1500)))
                     `quot` 2)))) ;;;
       o2 <- field offset2 ;;
       s2 <- field sensitivity2 ;;
       ret (to_int64 (offset - o2), to_int64 (sensitivity - s2))
     else ret (offset, sensitivity)) ;;
  let offset := fst os in
  let sensitivity := snd os in
  let pres :=
    to_uint32 (to_int64 (to_int64 (to_int64 D1 * sensitivity) `quot` 2097152
                         - offset) `quot` 32768) in
  ret (to_int32 pres).

(** ** Double-precision arithmetic

    The values of a [double] are the binary64 numbers of [SpecFloat]; [*],
    [-] and [/] are its operations at precision 53 and exponent bound 1024,
    correctly rounded to nearest, ties to even. *)

Definition double : Type := spec_float.
Definition double_prec : Z := 53.
Definition double_emax : Z := 1024.


(** A [float] literal is the binary32 number nearest to its decimal, here
    the correctly rounded quotient of two integers below [2 ^ 24]; the
    usual arithmetic conversions turn it into the [double] of the same
    value before it meets a [double] operand. *)
Definition float_prec : Z := 24.
Definition float_emax : Z := 128.

Definition float_of_decimal (numerator denominator : Z) : spec_float :=
  SFdiv float_prec float_emax
    (binary_normalize float_prec float_emax numerator 0 false)
    (binary_normalize float_prec float_emax denominator 0 false).

Definition float_to_double (x : spec_float) : double :=
  match x with
  | S754_finite s m e =>
      binary_normalize double_prec double_emax (cond_Zopp s (Z.pos m)) e false
  | _ => x
  end.

(** The literals of the altitude functions, as [double]s. *)
Definition literal_1_0f : double :=          (* 1.0f *)
  S754_finite false 4503599627370496 (-52).
Definition literal_44330_0f : double :=      (* 44330.0f *)
  S754_finite false 6092668807413760 (-37).
Definition literal_0_1902949f : double :=    (* 0.1902949f = 12770475 / 2^26 *)
  S754_finite false 6856096559923200 (-55).
Definition literal_5_255f : double :=        (* 5.255f = 11020534 / 2^21 *)
  S754_finite false 5916604139307008 (-50).

(** ** MS5611.cpp: altitude and sea-level pressure

    Neither function reads or writes a member.  [pow] is the C library's;
    it is the first argument of both. *)



(** The default of [seaLevelPressure] in [MS5611.h]: 101325. *)
Definition seaLevelPressure_default : double :=
  S754_finite false 6963000980275200 (-36).

(** ** The compensation formulas as the specification words them

    Unbounded integers, division truncating toward zero. *)
Module Formula.

Definition dT (C : list Z) (D2 : Z) : Z := D2 - C !!! 4%nat * 256.

Definition TEMP (C : list Z) (D2 : Z) : Z :=
  2000 + (dT C D2 * C !!! 5%nat) `quot` 8388608.

Definition T2 (C : list Z) (D2 : Z) : Z :=
  if TEMP C D2 <? 2000 then (dT C D2 * dT C D2) `quot` 2 ^ 31 else 0.

Definition temperature (C : list Z) (D2 : Z) (compensation : bool) : Q :=
  Qmake (if compensation then TEMP C D2 - T2 C D2 else TEMP C D2) 100.

Definition OFF (C : list Z) (D2 : Z) : Z :=
  C !!! 1%nat * 65536 + (C !!! 3%nat * dT C D2) `quot` 128.

Definition SENS (C : list Z) (D2 : Z) : Z :=
  C !!! 0%nat * 32768 + (C !!! 2%nat * dT C D2) `quot` 256.

Definition OFF2 (T : Z) : Z :=
  if T <? 2000 then
    (5 * (T - 2000) ^ 2) `quot` 2
    + (if T <? -1500 then 7 * (T + 1500) ^ 2 else 0)
  else 0.

Definition SENS2 (T : Z) : Z :=
  if T <? 2000 then
    (5 * (T - 2000) ^ 2) `quot` 4
    + (if T <? -1500 then (11 * (T + 1500) ^ 2) `quot` 2 else 0)
  else 0.

Definition P (C : list Z) (D1 D2 : Z) (compensation : bool) : Z :=
  let off :=
    if compensation then OFF C D2 - OFF2 (TEMP C D2) else OFF C D2 in
  let sens :=
    if compensation then SENS C D2 - SENS2 (TEMP C D2) else SENS C D2 in
  ((D1 * sens) `quot` 2097152 - off) `quot` 32768.

End Formula.

(** ** Call sequences and byte combinations used in the statements *)

Definition register_select (reg : Z) : list Call :=
  [CallBeginTransmission MS5611_ADDRESS; CallWrite (to_uint8 reg);
   CallEndTransmission].

Definition register16_calls (reg : Z) : list Call :=
  register_select reg ++ [CallRequestFrom MS5611_ADDRESS 2; CallRead; CallRead].

Definition register24_calls (reg : Z) : list Call :=
  register_select reg
  ++ [CallRequestFrom MS5611_ADDRESS 2; CallRead; CallRead; CallRead].

Definition conversion_calls (command ms : Z) : list Call :=
  [CallBeginTransmission MS5611_ADDRESS; CallWrite command;
   CallEndTransmission; CallDelay ms].

Definition raw_calls (command : Z) (d : MS5611) : list Call :=
  conversion_calls (to_uint8 (command + userOversamplingRate d)) (counter d)
  ++ register24_calls MS5611_ADC_READ.

(** The calls of the first [k] PROM word reads. *)
Definition prom_calls (k : nat) : list Call :=
  concat (map (fun j => register16_calls (MS5611_READ_PROM + 2 * Z.of_nat j))
              (seq 0 k)).

(** The state after the driver has made the calls [cs]. *)
Definition after (cs : list Call) (s : State) : State :=
  mkState (self s) (mkBus (calls (wire s) ++ cs) (answer (wire s))).

(** The three bytes a 24-bit read takes from the bus when the log before it
    is [cs], and their combination. *)
Definition register24_bytes (a : list Call -> Z) (cs : list Call) (reg : Z)
  : Z * Z * Z :=
  let cs0 := cs ++ register_select reg ++ [CallRequestFrom MS5611_ADDRESS 2] in
  (to_uint8 (a cs0),
   to_uint8 (a (cs0 ++ [CallRead])),
   to_uint8 (a (cs0 ++ [CallRead; CallRead]))).

Definition combine24 (b : Z * Z * Z) : Z :=
  let '(byte0, byte1, byte2) := b in
  Z.lor (Z.lor (Z.shiftl byte0 16) (Z.shiftl byte1 8)) byte2.

Definition register16_bytes (a : list Call -> Z) (cs : list Call) (reg : Z)
  : Z * Z :=
  let cs0 := cs ++ register_select reg ++ [CallRequestFrom MS5611_ADDRESS 2] in
  (to_uint8 (a cs0), to_uint8 (a (cs0 ++ [CallRead]))).

Definition combine16 (b : Z * Z) : Z :=
  let '(high, low) := b in Z.lor (Z.shiftl high 8) low.

(** ** Values used in the statements about configuration and calibration *)

(** The delay [setOversampling] leaves in [counter]: the one of the
    enumerator, or the [old] one for any other value. *)
Definition conversion_delay (v old : Z) : Z :=
  if v =? ULTRA_LOW_POWER then 1
  else if v =? LOW_POWER then 2
  else if v =? STANDARD then 3
  else if v =? HIGH_RES then 5
  else if v =? ULTRA_HIGH_RES then 10
  else old.

(** The word that the [k]-th PROM read of a calibration load started in [s]
    returns, and the coefficient array after the load. *)
Definition prom_word (s : State) (k : nat) : Z :=
  combine16 (register16_bytes (answer (wire s)) (calls (wire s) ++ prom_calls k)
                              (MS5611_READ_PROM + 2 * Z.of_nat k)).

Definition loaded_coefficients (s : State) : list Z :=
  foldl (fun C k => <[k := prom_word s k]> C) (filterCoefficient (self s))
        (seq 0 6).

(** The state [s] with other values in the three scratch members. *)
Definition with_scratch (t2 o2 s2 : Z) (s : State) : State :=
  mkState
    (with_temperature2 t2 (with_offset2 o2 (with_sensitivity2 s2 (self s))))
    (wire s).

(** The calls of [begin] before the calibration load. *)
Definition reset_calls : list Call :=
  [CallBegin; CallBeginTransmission MS5611_ADDRESS; CallWrite MS5611_RESET;
   CallEndTransmission; CallDelay 100].

(** ** Values and predicates used in the statements about the altitude
    functions *)






(** ** Buses and driver objects for the worked examples *)

Fixpoint count_reads (cs : list Call) : nat :=
  match cs with
  | [] => O
  | CallRead :: cs' => S (count_reads cs')
  | _ :: cs' => count_reads cs'
  end.

(** The k-th [Wire.read()] returns the k-th byte of the script, and -1, as
    [Wire.read()] does on an empty receive buffer, once the script is used
    up. *)
Definition replay (script : list Z) : list Call -> Z :=
  fun cs => nth (count_reads cs) script (-1).

Definition datasheet_coefficients : list Z :=
  [40127; 36924; 23317; 23282; 33464; 28312].

Definition sample_driver (C : list Z) : MS5611 :=
  mkMS5611 C 5 HIGH_RES 0 0 0 HIGH_RES.

Definition sample_state (C : list Z) (script : list Z) : State :=
  mkState (sample_driver C) (mkBus [] (replay script)).

(** Raw samples of the examples, as the three bytes of an ADC read. *)
Definition D1_example : list Z := [0x8A; 0xA2; 0x1A].       (* 9085466 *)
Definition D2_example : list Z := [0x98; 0x09; 0x02].       (* 9963778 *)
Definition D2_datasheet : list Z := [0x82; 0xC1; 0x3E].     (* 8569150 *)
(** A temperature sample just above freezing, and the samples of a sensor
    that answers with zero bytes; the third [Wire.read()] finds the receive
    buffer empty in both. *)
Definition D2_cold : list Z := [0x7A; 0x12; -1].            (* 8000255 *)
Definition D1_short : list Z := [0x8A; 0xA2; -1].           (* 9085695 *)
Definition D2_zero : list Z := [0x00; 0x00; -1].            (* 255 *)


(** ** Arithmetic of the fixed-width conversions *)

Lemma to_uint8_range (z : Z) : is_uint8 (to_uint8 z).
Proof. unfold is_uint8, to_uint8, wrap_unsigned. apply Z.mod_pos_bound. lia. Qed.

Lemma wrap_signed_id (w z : Z) :
  0 < w -> - 2 ^ (w - 1) <= z < 2 ^ (w - 1) -> wrap_signed w z = z.
Proof.
  intros Hw Hz. unfold wrap_signed.
  assert (H2 : 2 ^ w = 2 * 2 ^ (w - 1)).
  { replace w with (Z.succ (w - 1)) at 1 by lia. apply Z.pow_succ_r. lia. }
  rewrite Z.mod_small; lia.
Qed.

Lemma to_int32_id (z : Z) : is_int32 z -> to_int32 z = z.
Proof. intros H. apply wrap_signed_id; [lia | exact H]. Qed.

Lemma to_int64_id (z : Z) : is_int64 z -> to_int64 z = z.
Proof. intros H. apply wrap_signed_id; [lia | exact H]. Qed.

Lemma to_uint32_id (z : Z) : 0 <= z < 2 ^ 32 -> to_uint32 z = z.
Proof. intros H. apply Z.mod_small. exact H. Qed.

Lemma to_uint16_id (z : Z) : is_uint16 z -> to_uint16 z = z.
Proof. intros H. apply Z.mod_small. exact H. Qed.

Lemma lor_shiftl_add (hi lo n : Z) :
  0 <= n -> 0 <= lo < 2 ^ n -> Z.lor (Z.shiftl hi n) lo = hi * 2 ^ n + lo.
Proof.
  intros Hn Hlo.
  assert (Hland : Z.land (Z.shiftl hi n) lo = 0).
  { apply Z.bits_inj'. intros k Hk.
    rewrite Z.land_spec, Z.bits_0.
    destruct (Z.lt_ge_cases k n) as [Hlt | Hge].
    - rewrite Z.shiftl_spec_low by lia. reflexivity.
    - destruct (Z.eq_dec lo 0) as [-> | Hne].
      + rewrite Z.bits_0. apply andb_false_r.
      + rewrite (Z.bits_above_log2 lo k), andb_false_r; [reflexivity | lia |].
        apply Z.log2_lt_pow2; [lia |].
        apply Z.lt_le_trans with (2 ^ n); [lia |].
        apply Z.pow_le_mono_r; lia. }
  rewrite <- Z.lxor_lor by exact Hland.
  rewrite <- Z.add_nocarry_lxor by exact Hland.
  rewrite Z.shiftl_mul_pow2 by lia. reflexivity.
Qed.

Lemma combine24_add (b0 b1 b2 : Z) :
  is_uint8 b0 -> is_uint8 b1 -> is_uint8 b2 ->
  combine24 (b0, b1, b2) = b0 * 65536 + b1 * 256 + b2.
Proof.
  unfold is_uint8, combine24. intros H0 H1 H2.
  replace (Z.shiftl b0 16) with (Z.shiftl (Z.shiftl b0 8) 8)
    by (rewrite Z.shiftl_shiftl by lia; reflexivity).
  rewrite <- Z.shiftl_lor.
  rewrite (lor_shiftl_add b0 b1 8) by lia.
  rewrite (lor_shiftl_add _ b2 8) by lia. lia.
Qed.

Lemma combine16_add (hi lo : Z) :
  is_uint8 hi -> is_uint8 lo -> combine16 (hi, lo) = hi * 256 + lo.
Proof.
  unfold is_uint8, combine16. intros H0 H1.
  rewrite (lor_shiftl_add hi lo 8) by lia. lia.
Qed.

Lemma combine24_range (b0 b1 b2 : Z) :
  is_uint8 b0 -> is_uint8 b1 -> is_uint8 b2 -> is_uint24 (combine24 (b0, b1, b2)).
Proof.
  intros H0 H1 H2. rewrite combine24_add by assumption.
  unfold is_uint8, is_uint24 in *. lia.
Qed.

Lemma combine16_range (hi lo : Z) :
  is_uint8 hi -> is_uint8 lo -> is_uint16 (combine16 (hi, lo)).
Proof.
  intros H0 H1. rewrite combine16_add by assumption.
  unfold is_uint8, is_uint16 in *. lia.
Qed.

(** ** Exactness of the fixed-width arithmetic on 24-bit samples and 16-bit
    coefficients *)

Lemma to_int32_to_uint32 (z : Z) : to_int32 (to_uint32 z) = to_int32 z.
Proof.
  unfold to_int32, to_uint32, wrap_signed, wrap_unsigned.
  change (2 ^ (32 - 1)) with 2147483648. change (2 ^ 32) with 4294967296.
  rewrite Z.add_mod_idemp_l by lia. reflexivity.
Qed.

Lemma to_int32_range (z : Z) : is_int32 (to_int32 z).
Proof.
  unfold is_int32, to_int32, wrap_signed.
  pose proof (Z.mod_pos_bound (z + 2 ^ (32 - 1)) (2 ^ 32)). lia.
Qed.

(** A slot of an array of 16-bit coefficients holds a 16-bit value. *)
Lemma coefficient_range (C : list Z) (i : nat) :
  Forall is_uint16 C -> is_uint16 (C !!! i).
Proof.
  intros HC. destruct (decide (i < length C)%nat) as [Hi | Hi].
  - apply Forall_lookup_total_1; assumption.
  - rewrite list_lookup_total_alt, lookup_ge_None_2 by lia.
    unfold is_uint16. cbn. lia.
Qed.

Lemma dT_exact (c4 D2 : Z) :
  is_uint16 c4 -> is_uint24 D2 ->
  to_int32 (to_uint32 (D2 - to_uint32 (to_uint32 c4 * 256))) = D2 - c4 * 256.
Proof.
  unfold is_uint16, is_uint24. intros H4 HD.
  rewrite to_int32_to_uint32.
  rewrite (to_uint32_id c4) by lia.
  rewrite (to_uint32_id (c4 * 256)) by lia.
  apply to_int32_id. unfold is_int32. lia.
Qed.

Lemma TEMP_exact (dT c5 : Z) :
  - 2 ^ 24 < dT < 2 ^ 24 -> is_uint16 c5 ->
  to_int32 (to_int64 (2000 + to_int64 (to_int64 dT * c5) `quot` 8388608))
  = 2000 + (dT * c5) `quot` 8388608.
Proof.
  unfold is_uint16. intros HdT H5.
  rewrite (to_int64_id dT) by (unfold is_int64; lia).
  assert (Hp : - 2 ^ 40 <= dT * c5 <= 2 ^ 40) by nia.
  rewrite (to_int64_id (dT * c5)) by (unfold is_int64; lia).
  assert (Hq : - 2 ^ 17 <= (dT * c5) `quot` 8388608 <= 2 ^ 17)
    by (Z.to_euclidean_division_equations; lia).
  rewrite to_int64_id by (unfold is_int64; lia).
  apply to_int32_id. unfold is_int32. lia.
Qed.

Lemma TEMP_range (dT c5 : Z) :
  - 2 ^ 24 < dT < 2 ^ 24 -> is_uint16 c5 ->
  - 2 ^ 18 <= 2000 + (dT * c5) `quot` 8388608 <= 2 ^ 18.
Proof.
  unfold is_uint16. intros HdT H5.
  assert (Hp : - 2 ^ 40 <= dT * c5 <= 2 ^ 40) by nia.
  Z.to_euclidean_division_equations; lia.
Qed.

(** [(int64_t)c * k + (int64_t)c' * dT / d]: the shape of [offset]
    (k = 65536, d = 128) and of [sensitivity] (k = 32768, d = 256). *)
Lemma linear_term_exact (c c' dT k d : Z) :
  is_uint16 c -> is_uint16 c' -> - 2 ^ 24 < dT < 2 ^ 24 ->
  (k = 65536 /\ d = 128) \/ (k = 32768 /\ d = 256) ->
  to_int64 (to_int64 (to_int64 c * k) + to_int64 (to_int64 c' * dT) `quot` d)
  = c * k + (c' * dT) `quot` d
  /\ - 2 ^ 34 <= c * k + (c' * dT) `quot` d <= 2 ^ 34.
Proof.
  unfold is_uint16. intros Hc Hc' HdT Hkd.
  rewrite (to_int64_id c), (to_int64_id c') by (unfold is_int64; lia).
  assert (Hck : 0 <= c * k <= 2 ^ 32) by nia.
  assert (Hp : - 2 ^ 40 <= c' * dT <= 2 ^ 40) by nia.
  rewrite (to_int64_id (c * k)), (to_int64_id (c' * dT))
    by (unfold is_int64; lia).
  assert (Hq : - 2 ^ 33 <= (c' * dT) `quot` d <= 2 ^ 33)
    by (destruct Hkd as [[_ ->] | [_ ->]];
        Z.to_euclidean_division_equations; lia).
  split; [apply to_int64_id; unfold is_int64; lia | lia].
Qed.

Lemma scaled_square_exact (m x : Z) :
  0 < m -> m * x ^ 2 < 2 ^ 31 ->
  to_int32 (m * to_int32 (to_int32 x * to_int32 x)) = m * x ^ 2.
Proof.
  intros Hm Hb.
  assert (Hsq : 0 <= x ^ 2 < 2 ^ 31) by nia.
  assert (Habs : - 2 ^ 31 < x < 2 ^ 31) by nia.
  rewrite (to_int32_id x) by (unfold is_int32; lia).
  replace (x * x) with (x ^ 2) by ring.
  rewrite (to_int32_id (x ^ 2)) by (unfold is_int32; lia).
  assert (Hpos : 0 <= m * x ^ 2) by (apply Z.mul_nonneg_nonneg; lia).
  apply to_int32_id. unfold is_int32. lia.
Qed.

Lemma pressure_exact (D1 sens off : Z) :
  is_uint24 D1 -> - 2 ^ 36 <= sens <= 2 ^ 36 -> - 2 ^ 36 <= off <= 2 ^ 36 ->
  to_int32
    (to_uint32 (to_int64 (to_int64 (to_int64 D1 * sens) `quot` 2097152 - off)
                `quot` 32768))
  = ((D1 * sens) `quot` 2097152 - off) `quot` 32768.
Proof.
  unfold is_uint24. intros HD Hs Ho.
  rewrite (to_int64_id D1) by (unfold is_int64; lia).
  assert (Hp : - 2 ^ 60 <= D1 * sens <= 2 ^ 60) by nia.
  rewrite (to_int64_id (D1 * sens)) by (unfold is_int64; lia).
  assert (Hq : - 2 ^ 39 <= (D1 * sens) `quot` 2097152 <= 2 ^ 39)
    by (Z.to_euclidean_division_equations; lia).
  rewrite to_int64_id by (unfold is_int64; lia).
  rewrite to_int32_to_uint32.
  apply to_int32_id. unfold is_int32.
  Z.to_euclidean_division_equations; lia.
Qed.

(** ** The 32-bit square of [dT] *)

Lemma even_or_odd (x : Z) : exists q, x = 2 * q \/ x = 2 * q + 1.
Proof.
  exists (x / 2).
  pose proof (Z.div_mod x 2). pose proof (Z.mod_pos_bound x 2). lia.
Qed.

(** A square is never 2^(2n+1) modulo 2^(2n+2). *)
Lemma square_mod_pow2 (n : nat) (x : Z) :
  (x * x) mod 2 ^ (2 * Z.of_nat n + 2) <> 2 ^ (2 * Z.of_nat n + 1).
Proof.
  revert x. induction n as [| n IH]; intros x H.
  - change (2 ^ (2 * Z.of_nat 0 + 2)) with 4 in H.
    change (2 ^ (2 * Z.of_nat 0 + 1)) with 2 in H.
    destruct (even_or_odd x) as [q [-> | ->]].
    + replace (2 * q * (2 * q)) with (q * q * 4) in H by ring.
      rewrite Z.mod_mul in H by lia. discriminate.
    + replace ((2 * q + 1) * (2 * q + 1)) with (1 + (q * q + q) * 4) in H
        by ring.
      rewrite Z.mod_add in H by lia. discriminate.
  - replace (2 * Z.of_nat (S n) + 2) with (2 + (2 * Z.of_nat n + 2)) in H
      by lia.
    replace (2 * Z.of_nat (S n) + 1) with (2 + (2 * Z.of_nat n + 1)) in H
      by lia.
    rewrite !(Z.pow_add_r 2 2) in H by lia.
    change (2 ^ 2) with 4 in H.
    destruct (even_or_odd x) as [q [-> | ->]].
    + replace (2 * q * (2 * q)) with (4 * (q * q)) in H by ring.
      rewrite Z.mul_mod_distr_l in H by lia.
      apply (IH q). lia.
    + set (m := 2 ^ (2 * Z.of_nat n + 2)) in *.
      assert (Hm : 0 < m) by (apply Z.pow_pos_nonneg; lia).
      pose proof (Z.div_mod ((2 * q + 1) * (2 * q + 1)) (4 * m)) as Hd.
      rewrite H in Hd. lia.
Qed.

(** The 32-bit product [dT * dT] is never [INT32_MIN], so its quotient by
    2^31 truncates to 0 whatever [dT] is. *)
Lemma int32_square_quot (x : Z) : to_int32 (x * x) `quot` 2 ^ 31 = 0.
Proof.
  pose proof (to_int32_range (x * x)) as Hr. unfold is_int32 in Hr.
  assert (Hne : to_int32 (x * x) <> - 2 ^ 31).
  { intros Heq. apply (square_mod_pow2 15 x).
    change (2 ^ (2 * Z.of_nat 15 + 2)) with (2 ^ 32).
    change (2 ^ (2 * Z.of_nat 15 + 1)) with (2 ^ 31).
    unfold to_int32, wrap_signed in Heq.
    change (2 ^ (32 - 1)) with (2 ^ 31) in Heq.
    Z.to_euclidean_division_equations; lia. }
  apply Z.quot_small_iff; lia.
Qed.

(** ** Register access and raw reads: full effect *)

Lemma readRegister24_eq (reg : Z) (s : State) :
  readRegister24 reg s
  = (combine24 (register24_bytes (answer (wire s)) (calls (wire s)) reg),
     after (register24_calls reg) s).
Proof.
  destruct s as [d [cs a]].
  unfold readRegister24, after, register24_bytes, register24_calls. cbn.
  rewrite <- !app_assoc. cbn.
  set (b0 := to_uint8 (a _)). set (b1 := to_uint8 (a _)).
  set (b2 := to_uint8 (a _)).
  assert (H0 : is_uint8 b0) by apply to_uint8_range.
  assert (H1 : is_uint8 b1) by apply to_uint8_range.
  assert (H2 : is_uint8 b2) by apply to_uint8_range.
  f_equal.
  rewrite (to_int32_id b0), (to_int32_id b1)
    by (unfold is_uint8, is_int32 in *; lia).
  apply to_uint32_id.
  pose proof (combine24_range b0 b1 b2 H0 H1 H2) as Hr.
  unfold combine24, is_uint24 in Hr. lia.
Qed.

Lemma readRegister16_eq (reg : Z) (s : State) :
  readRegister16 reg s
  = (combine16 (register16_bytes (answer (wire s)) (calls (wire s)) reg),
     after (register16_calls reg) s).
Proof.
  destruct s as [d [cs a]].
  unfold readRegister16, after, register16_bytes, register16_calls. cbn.
  rewrite <- !app_assoc. cbn.
  set (b0 := to_uint8 (a _)). set (b1 := to_uint8 (a _)).
  f_equal. apply to_uint16_id. apply combine16_range; apply to_uint8_range.
Qed.

Lemma readRawTemperature_eq (s : State) :
  readRawTemperature s
  = readRegister24 MS5611_ADC_READ
      (after (conversion_calls
                (to_uint8 (MS5611_CONV_D2 + userOversamplingRate (self s)))
                (counter (self s))) s).
Proof.
  destruct s as [d [cs a]]. unfold readRawTemperature, after. cbn.
  rewrite <- !app_assoc. reflexivity.
Qed.

Lemma readRawPressure_eq (s : State) :
  readRawPressure s
  = readRegister24 MS5611_ADC_READ
      (after (conversion_calls
                (to_uint8 (MS5611_CONV_D1 + userOversamplingRate (self s)))
                (counter (self s))) s).
Proof.
  destruct s as [d [cs a]]. unfold readRawPressure, after. cbn.
  rewrite <- !app_assoc. reflexivity.
Qed.

Lemma after_after (cs cs' : list Call) (s : State) :
  after cs' (after cs s) = after (cs ++ cs') s.
Proof. unfold after. cbn. rewrite app_assoc. reflexivity. Qed.

Lemma readRawTemperature_after (s : State) :
  readRawTemperature s
  = (run readRawTemperature s, after (raw_calls MS5611_CONV_D2 (self s)) s)
  /\ is_uint24 (run readRawTemperature s).
Proof.
  unfold run. rewrite readRawTemperature_eq, readRegister24_eq.
  cbn [fst]. rewrite after_after. split; [reflexivity |].
  unfold register24_bytes. apply combine24_range; apply to_uint8_range.
Qed.

Lemma readRawPressure_after (s : State) :
  readRawPressure s
  = (run readRawPressure s, after (raw_calls MS5611_CONV_D1 (self s)) s)
  /\ is_uint24 (run readRawPressure s).
Proof.
  unfold run. rewrite readRawPressure_eq, readRegister24_eq.
  cbn [fst]. rewrite after_after. split; [reflexivity |].
  unfold register24_bytes. apply combine24_range; apply to_uint8_range.
Qed.

(** ** 24-bit register read *)

(** C5: for every register address, [readRegister24] writes the register
    address, then asks the bus for 2 bytes (not 3) and takes three bytes from
    it with three [Wire.read()] calls; the three bytes are combined as
    [(byte0 << 16) | (byte1 << 8) | byte2], a 24-bit magnitude. *)
Theorem readRegister24_requests_two_bytes (reg : Z) (s : State) :
  calls (wire (exec (readRegister24 reg) s))
  = calls (wire s)
    ++ [CallBeginTransmission MS5611_ADDRESS; CallWrite (to_uint8 reg);
        CallEndTransmission;
        CallRequestFrom MS5611_ADDRESS 2;
        CallRead; CallRead; CallRead]
  /\ run (readRegister24 reg) s
     = combine24 (register24_bytes (answer (wire s)) (calls (wire s)) reg)
  /\ is_uint24 (run (readRegister24 reg) s).
Proof.
  unfold exec, run. rewrite readRegister24_eq. cbn [fst snd].
  split; [reflexivity | split; [reflexivity |]].
  unfold register24_bytes. apply combine24_range; apply to_uint8_range.
Qed.

(** On a bus that hands over the two bytes that were requested and answers
    the third [Wire.read()] with -1, the low byte of every 24-bit result is
    0xFF. *)
Example readRegister24_third_byte_missing :
  run (readRegister24 MS5611_ADC_READ)
      (sample_state datasheet_coefficients [0x82; 0xC1])
  = 0x82C1FF.
Proof. reflexivity. Qed.

(** ** Calibration load *)

(** The loop of [getCalibrationData] leaves after six iterations. *)
Lemma for_uint8_six (body : Z -> M unit) :
  for_uint8 256 0 (fun offset => offset <? 6) body
  = (body 0 ;;; body 1 ;;; body 2 ;;; body 3 ;;; body 4 ;;; body 5 ;;; ret tt).
Proof. reflexivity. Qed.

(** C6: calibration loading reads six 16-bit words, the word for slot
    [offset] from register [MS5611_READ_PROM + 2 * offset], in the order of
    the offsets 0 to 5, and stores each in its slot: all six coefficients are
    overwritten, the array keeps its six slots, no other member of the driver
    object changes, and the function (of result type [unit], total) has no
    failure path. *)
Theorem getCalibrationData_loads_six (s : State) :
  length (filterCoefficient (self s)) = 6%nat ->
  let s' := exec getCalibrationData s in
  length (filterCoefficient (self s')) = 6%nat
  /\ (forall k : nat, (k < 6)%nat ->
        filterCoefficient (self s') !! k
        = Some (run (readRegister16 (MS5611_READ_PROM + 2 * Z.of_nat k))
                    (after (prom_calls k) s)))
  /\ wire s' = wire (after (prom_calls 6) s)
  /\ counter (self s') = counter (self s)
  /\ userOversamplingRate (self s') = userOversamplingRate (self s)
  /\ temperature2 (self s') = temperature2 (self s)
  /\ offset2 (self s') = offset2 (self s)
  /\ sensitivity2 (self s') = sensitivity2 (self s)
  /\ osr (self s') = osr (self s).
Proof.
  destruct s as [[C c r t2 o2 s2 o] [cs a]]. cbn [self filterCoefficient].
  intros HC.
  do 6 (destruct C as [| ? C]; [discriminate HC |]).
  destruct C; [| discriminate HC].
  unfold exec, getCalibrationData. rewrite for_uint8_six.
  unfold bind, field, assign, ret.
  repeat (rewrite readRegister16_eq; cbv beta iota).
  cbn [snd self wire after filterCoefficient counter userOversamplingRate
       temperature2 offset2 sensitivity2 osr with_filterCoefficient calls
       answer].
  change (to_uint8 (MS5611_READ_PROM + 0 * 2))
    with (MS5611_READ_PROM + 2 * Z.of_nat 0).
  change (to_uint8 (MS5611_READ_PROM + 1 * 2))
    with (MS5611_READ_PROM + 2 * Z.of_nat 1).
  change (to_uint8 (MS5611_READ_PROM + 2 * 2))
    with (MS5611_READ_PROM + 2 * Z.of_nat 2).
  change (to_uint8 (MS5611_READ_PROM + 3 * 2))
    with (MS5611_READ_PROM + 2 * Z.of_nat 3).
  change (to_uint8 (MS5611_READ_PROM + 4 * 2))
    with (MS5611_READ_PROM + 2 * Z.of_nat 4).
  change (to_uint8 (MS5611_READ_PROM + 5 * 2))
    with (MS5611_READ_PROM + 2 * Z.of_nat 5).
  unfold run, prom_calls.
  split; [reflexivity |].
  split.
  { intros k Hk. rewrite readRegister16_eq. cbn [fst after wire calls answer].
    do 6 (destruct k as [| k];
          [cbn [concat map seq]; rewrite <- ?app_assoc, ?app_nil_r;
           reflexivity |]).
    lia. }
  split.
  { cbn [concat map seq]. rewrite <- !app_assoc, app_nil_r. reflexivity. }
  repeat split.
Qed.

Lemma getCalibrationData_loads_six_witness :
  let s := sample_state [0; 0; 0; 0; 0; 0]
             [0x9C; 0xBF; 0x90; 0x3C; 0x5B; 0x15; 0x5A; 0xF2; 0x82; 0xB8;
              0x6E; 0x98] in
  length (filterCoefficient (self s)) = 6%nat
  /\ filterCoefficient (self (exec getCalibrationData s)) !! 4%nat
     = Some 33464.
Proof.
  intros s. split; [reflexivity |].
  destruct (getCalibrationData_loads_six s eq_refl) as (_ & Hk & _).
  rewrite (Hk 4%nat) by lia. reflexivity.
Defined.

(** ** Conversions *)

(** C8: after [setOversampling osr] with one of the five enumerators, both
    raw-measurement operations send the command byte (base command of the
    kind) + [osr], wait the delay that [setOversampling] stored, which is the
    same for both kinds, then read the 24-bit ADC result register and return
    what that read returns; the five stored delays increase strictly from
    [ULTRA_LOW_POWER] to [ULTRA_HIGH_RES]. *)
Theorem readRaw_protocol (osr : Z) (s0 : State) :
  is_osr osr ->
  let s := exec (setOversampling osr) s0 in
  let settle := counter (self s) in
  readRawTemperature s
  = readRegister24 MS5611_ADC_READ
      (after [CallBeginTransmission MS5611_ADDRESS;
              CallWrite (MS5611_CONV_D2 + osr);
              CallEndTransmission; CallDelay settle] s)
  /\ readRawPressure s
     = readRegister24 MS5611_ADC_READ
         (after [CallBeginTransmission MS5611_ADDRESS;
                 CallWrite (MS5611_CONV_D1 + osr);
                 CallEndTransmission; CallDelay settle] s)
  /\ (forall t0 t1 t2 t3 t4 : State,
        counter (self (exec (setOversampling ULTRA_LOW_POWER) t0))
        < counter (self (exec (setOversampling LOW_POWER) t1))
        < counter (self (exec (setOversampling STANDARD) t2))
        /\ counter (self (exec (setOversampling STANDARD) t2))
           < counter (self (exec (setOversampling HIGH_RES) t3))
           < counter (self (exec (setOversampling ULTRA_HIGH_RES) t4))).
Proof.
  intros Hosr s settle. subst settle s.
  rewrite readRawTemperature_eq, readRawPressure_eq.
  destruct s0 as [d [cs a]].
  split; [| split].
  - destruct Hosr as [-> | [-> | [-> | [-> | ->]]]]; reflexivity.
  - destruct Hosr as [-> | [-> | [-> | [-> | ->]]]]; reflexivity.
  - intros. cbn. lia.
Qed.

Lemma readRaw_protocol_witness :
  let s0 := sample_state datasheet_coefficients [0x82; 0xC1; 0x3E] in
  is_osr STANDARD
  /\ run readRawTemperature (exec (setOversampling STANDARD) s0) = 8569150
  /\ calls (wire (exec readRawTemperature (exec (setOversampling STANDARD) s0)))
     = [CallBeginTransmission 0x77; CallWrite 0x54; CallEndTransmission;
        CallDelay 3;
        CallBeginTransmission 0x77; CallWrite 0x00; CallEndTransmission;
        CallRequestFrom 0x77 2; CallRead; CallRead; CallRead].
Proof.
  intros s0.
  assert (H : is_osr STANDARD) by (right; right; left; reflexivity).
  split; [exact H |].
  destruct (readRaw_protocol STANDARD s0 H) as (HT & _ & _).
  unfold run, exec in *. rewrite HT. split; reflexivity.
Defined.

(** ** Initialization *)

(** C10: [begin] returns [true] for every oversampling argument, every
    driver object and every bus, whatever the bus answers: initialization
    has no failure path. *)
Theorem begin_returns_true (osr : Z) (s : State) :
  run (begin osr) s = true.
Proof.
  unfold run, begin, bind.
  repeat match goal with
         | |- context [let (_, _) := ?m in _] => destruct m
         end.
  reflexivity.
Qed.

(** ** Oversampling values outside the enumeration *)

Lemma not_osr_10 : ~ is_osr 0x0A.
Proof. exact (bool_decide_unpack (~ is_osr 0x0A) I). Qed.

(** C7, as stated, fails: [setOversampling] with a value that is none of the
    five enumerators does not leave the stored rate in effect.  On a driver
    set to [HIGH_RES], the call with 0x0A makes [getOversampling] return
    0x0A. *)
Lemma setOversampling_invalid_rate_not_kept :
  ~ (forall (v : Z) (s : State), ~ is_osr v ->
       let s' := exec (setOversampling v) s in
       counter (self s') = counter (self s)
       /\ userOversamplingRate (self s') = userOversamplingRate (self s)
       /\ run getOversampling s' = run getOversampling s).
Proof.
  intros H.
  destruct (H 0x0A (sample_state datasheet_coefficients []) not_osr_10)
    as (_ & Hrate & _).
  discriminate Hrate.
Qed.

(** C7, amended: for every value that is none of the five enumerators,
    [setOversampling] leaves the settling delay as it was and stores the
    value, converted to [uint8_t], as the rate: [getOversampling] then
    returns the new value, and a measurement sends the base command plus the
    new value and waits the delay that was in effect before the call. *)
Theorem setOversampling_invalid_keeps_delay_stores_rate (v : Z) (s : State) :
  ~ is_osr v ->
  let s' := exec (setOversampling v) s in
  counter (self s') = counter (self s)
  /\ userOversamplingRate (self s') = to_uint8 v
  /\ run getOversampling s' = to_uint8 v
  /\ readRawTemperature s'
     = readRegister24 MS5611_ADC_READ
         (after [CallBeginTransmission MS5611_ADDRESS;
                 CallWrite (to_uint8 (MS5611_CONV_D2 + to_uint8 v));
                 CallEndTransmission; CallDelay (counter (self s))] s')
  /\ readRawPressure s'
     = readRegister24 MS5611_ADC_READ
         (after [CallBeginTransmission MS5611_ADDRESS;
                 CallWrite (to_uint8 (MS5611_CONV_D1 + to_uint8 v));
                 CallEndTransmission; CallDelay (counter (self s))] s').
Proof.
  intros Hv s'.
  assert (Hs' : s' = mkState (with_userOversamplingRate (to_uint8 v) (self s))
                             (wire s)).
  { subst s'. unfold exec, setOversampling, bind.
    destruct (Z.eqb_spec v ULTRA_LOW_POWER) as [E | _];
      [exfalso; apply Hv; left; exact E |].
    destruct (Z.eqb_spec v LOW_POWER) as [E | _];
      [exfalso; apply Hv; right; left; exact E |].
    destruct (Z.eqb_spec v STANDARD) as [E | _];
      [exfalso; apply Hv; right; right; left; exact E |].
    destruct (Z.eqb_spec v HIGH_RES) as [E | _];
      [exfalso; apply Hv; right; right; right; left; exact E |].
    destruct (Z.eqb_spec v ULTRA_HIGH_RES) as [E | _];
      [exfalso; apply Hv; right; right; right; right; exact E |].
    reflexivity. }
  rewrite readRawTemperature_eq, readRawPressure_eq, Hs'. cbn.
  repeat split.
  unfold run, getOversampling. cbn.
  unfold to_uint8, wrap_unsigned. apply Z.mod_mod. lia.
Qed.

Lemma setOversampling_invalid_keeps_delay_stores_rate_witness :
  let s := sample_state datasheet_coefficients [] in
  let s' := exec (setOversampling 0x0A) s in
  ~ is_osr 0x0A
  /\ counter (self s') = 5
  /\ run getOversampling s' = 0x0A.
Proof.
  intros s s'. split; [exact not_osr_10 |].
  destruct (setOversampling_invalid_keeps_delay_stores_rate 0x0A s not_osr_10)
    as (Hc & _ & Hg & _).
  fold s' in Hc, Hg. rewrite Hc, Hg. split; reflexivity.
Defined.

(** ** Temperature *)

(** Without compensation [readTemperature] returns the base temperature of
    the formula, for all 16-bit coefficients and every raw sample the bus can
    deliver. *)
Lemma readTemperature_uncompensated (s : State) :
  let C := filterCoefficient (self s) in
  Forall is_uint16 C ->
  run (readTemperature false) s
  = Formula.temperature C (run readRawTemperature s) false.
Proof.
  intros C HC.
  pose proof (coefficient_range C 4 HC) as H4.
  pose proof (coefficient_range C 5 HC) as H5.
  destruct (readRawTemperature_after s) as [Hraw HD2].
  set (D2 := run readRawTemperature s) in *. clearbody D2.
  unfold run, readTemperature, bind. rewrite Hraw.
  cbn. fold C.
  rewrite dT_exact by assumption.
  assert (HdT : - 2 ^ 24 < D2 - C !!! 4%nat * 256 < 2 ^ 24)
    by (unfold is_uint16, is_uint24 in *; lia).
  rewrite TEMP_exact by assumption.
  pose proof (TEMP_range _ _ HdT H5) as HT.
  rewrite Z.sub_0_r, to_int32_id by (unfold is_int32; lia).
  reflexivity.
Qed.

(** The compensation flag of [readTemperature] has no effect at all: result
    and final state are those of the uncompensated call. *)
Lemma readTemperature_flag_ignored (s : State) :
  readTemperature true s = readTemperature false s.
Proof.
  unfold readTemperature, bind.
  destruct (readRawTemperature s) as [D2 s1].
  cbn. rewrite int32_square_quot. reflexivity.
Qed.

(** C1: [readTemperature] does not apply the second-order correction.  With
    the datasheet coefficients and the raw sample 8000255 the base
    temperature is 88 (0.88 degrees C, below 20.00), the correction
    [(dT * dT) / 2^31] is 149, and the compensated result would be -0.61
    degrees C; the code, which multiplies [dT * dT] in 32 bits and tests the
    zeroed [temperature2] instead of [temperature], returns 0.88 degrees C
    and leaves [temperature2] at 0. *)
Theorem readTemperature_compensation_lost :
  let C := datasheet_coefficients in
  let s := sample_state C D2_cold in
  run readRawTemperature s = 8000255
  /\ Formula.TEMP C 8000255 = 88
  /\ Formula.T2 C 8000255 = 149
  /\ Formula.temperature C 8000255 true = Qmake (-61) 100
  /\ run (readTemperature true) s = Qmake 88 100
  /\ temperature2 (self (exec (readTemperature true) s)) = 0.
Proof. cbv zeta. repeat split; vm_compute; reflexivity. Qed.

(** ** Pressure *)

(** Without compensation [readPressure] returns the pressure of the formula,
    for all 16-bit coefficients and all raw samples the bus can deliver. *)
Lemma readPressure_uncompensated (s : State) :
  let C := filterCoefficient (self s) in
  let D1 := run readRawPressure s in
  let D2 := run readRawTemperature (exec readRawPressure s) in
  Forall is_uint16 C ->
  run (readPressure false) s = Formula.P C D1 D2 false.
Proof.
  cbv zeta. intros HC0.
  pose proof (fun i => coefficient_range _ i HC0) as HC. clear HC0.
  destruct (readRawPressure_after s) as [HrawP HD1].
  assert (Hs1 : exec readRawPressure s
                = after (raw_calls MS5611_CONV_D1 (self s)) s)
    by (unfold exec; rewrite HrawP; reflexivity).
  destruct (readRawTemperature_after (exec readRawPressure s))
    as [HrawT HD2].
  assert (Hself : self (exec readRawPressure s) = self s)
    by (rewrite Hs1; reflexivity).
  unfold run at 1. unfold readPressure, bind.
  rewrite HrawP, <- Hs1, HrawT.
  unfold field at 1. cbn [self after]. rewrite Hself.
  unfold ret. cbn [fst snd].
  revert HC HD1 HD2.
  generalize (run readRawTemperature (exec readRawPressure s)).
  generalize (run readRawPressure s).
  generalize (filterCoefficient (self s)).
  clear. intros C D1 D2 HC HD1 HD2.
  rewrite !dT_exact by first [apply HC | assumption].
  assert (HdT : - 2 ^ 24 < D2 - C !!! 4%nat * 256 < 2 ^ 24)
    by (pose proof (HC 4%nat); unfold is_uint16, is_uint24 in *; lia).
  destruct (linear_term_exact (C !!! 1%nat) (C !!! 3%nat) _ 65536 128
              (HC _) (HC _) HdT) as [Hoff Hoffr]; [left; split; reflexivity |].
  destruct (linear_term_exact (C !!! 0%nat) (C !!! 2%nat) _ 32768 256
              (HC _) (HC _) HdT) as [Hsens Hsensr];
    [right; split; reflexivity |].
  rewrite Hoff, Hsens.
  apply pressure_exact; [assumption | lia | lia].
Qed.

(** Removes the [to_int64] conversions whose argument is in range by linear
    arithmetic, leaving the conversion of [keep] in place. *)
Ltac strip_int64 keep :=
  repeat match goal with
         | |- context [to_int64 ?z] =>
             lazymatch z with
             | keep => fail
             | _ => rewrite (to_int64_id z) by (unfold is_int64; lia)
             end
         end.

(** With compensation [readPressure] returns the pressure of the formula as
    long as the base temperature is at least -154.72 degrees C, the range in
    which the 32-bit products of the second-order terms do not overflow. *)
Lemma readPressure_compensated (s : State) :
  let C := filterCoefficient (self s) in
  let D1 := run readRawPressure s in
  let D2 := run readRawTemperature (exec readRawPressure s) in
  Forall is_uint16 C ->
  -15472 <= Formula.TEMP C D2 ->
  run (readPressure true) s = Formula.P C D1 D2 true.
Proof.
  cbv zeta. intros HC0 HT.
  pose proof (fun i => coefficient_range _ i HC0) as HC. clear HC0.
  destruct (readRawPressure_after s) as [HrawP HD1].
  assert (Hs1 : exec readRawPressure s
                = after (raw_calls MS5611_CONV_D1 (self s)) s)
    by (unfold exec; rewrite HrawP; reflexivity).
  destruct (readRawTemperature_after (exec readRawPressure s))
    as [HrawT HD2].
  assert (Hself : self (exec readRawPressure s) = self s)
    by (rewrite Hs1; reflexivity).
  unfold run at 1. unfold readPressure, bind.
  rewrite HrawP, <- Hs1, HrawT.
  unfold field at 1. cbn [self after]. rewrite Hself.
  revert HC HT HD1 HD2.
  generalize (run readRawTemperature (exec readRawPressure s)).
  generalize (run readRawPressure s).
  generalize (after (raw_calls MS5611_CONV_D2 (self s))
                    (exec readRawPressure s)).
  generalize (filterCoefficient (self s)).
  clear. intros C st D1 D2 HC HT HD1 HD2.
  rewrite !dT_exact by first [apply HC | assumption].
  assert (HdT : - 2 ^ 24 < D2 - C !!! 4%nat * 256 < 2 ^ 24)
    by (pose proof (HC 4%nat); unfold is_uint16, is_uint24 in *; lia).
  rewrite !TEMP_exact by first [apply HC | assumption].
  pose proof (TEMP_range _ _ HdT (HC 5%nat)) as HTr.
  destruct (linear_term_exact (C !!! 1%nat) (C !!! 3%nat) _ 65536 128
              (HC _) (HC _) HdT) as [Hoff Hoffr]; [left; split; reflexivity |].
  destruct (linear_term_exact (C !!! 0%nat) (C !!! 2%nat) _ 32768 256
              (HC _) (HC _) HdT) as [Hsens Hsensr];
    [right; split; reflexivity |].
  rewrite Hoff, Hsens.
  unfold Formula.P, Formula.OFF, Formula.SENS.
  unfold Formula.TEMP in *. unfold Formula.dT in *.
  revert HT HTr Hoffr Hsensr. clear - HD1.
  generalize (C !!! 0%nat * 32768
              + (C !!! 2%nat * (D2 - C !!! 4%nat * 256)) `quot` 256).
  generalize (C !!! 1%nat * 65536
              + (C !!! 3%nat * (D2 - C !!! 4%nat * 256)) `quot` 128).
  generalize (2000 + ((D2 - C !!! 4%nat * 256) * C !!! 5%nat) `quot` 8388608).
  clear - HD1. intros T OFF SENS HT HTr Hoffr Hsensr.
  assert (Hsq : forall x a : Z, - a <= x <= a -> 0 <= x ^ 2 <= a * a)
    by (intros; nia).
  unfold Formula.OFF2, Formula.SENS2.
  destruct (Z.ltb_spec T 2000) as [Hlt | Hge];
    [destruct (Z.ltb_spec T (-1500)) as [Hlt1 | Hge1] |
     destruct (Z.ltb_spec T (-1500)) as [Hlt1 | _]; [exfalso; lia |]];
    unfold when, assign, field, ret;
    cbn [fst snd self wire offset2 sensitivity2 with_offset2
         with_sensitivity2].
  - assert (Ha : 0 <= (T - 2000) ^ 2 <= 17472 * 17472) by (apply Hsq; lia).
    assert (Hb : 0 <= (T + 1500) ^ 2 <= 13972 * 13972) by (apply Hsq; lia).
    rewrite !(scaled_square_exact 5 (T - 2000)) by lia.
    rewrite (scaled_square_exact 7 (T + 1500)) by lia.
    rewrite (scaled_square_exact 11 (T + 1500)) by lia.
    revert Ha Hb.
    generalize ((T - 2000) ^ 2). generalize ((T + 1500) ^ 2).
    intros B A Ha Hb.
    assert (Hq4 : 0 <= (5 * A) `quot` 4 <= 2 ^ 31)
      by (clear - Ha; Z.to_euclidean_division_equations; lia).
    assert (Hq2 : 0 <= (5 * A) `quot` 2 <= 2 ^ 31)
      by (clear - Ha; Z.to_euclidean_division_equations; lia).
    assert (Hq11 : 0 <= (11 * B) `quot` 2 <= 2 ^ 31)
      by (clear - Hb; Z.to_euclidean_division_equations; lia).
    strip_int64 D1.
    apply pressure_exact; [assumption | lia | lia].
  - assert (Ha : 0 <= (T - 2000) ^ 2 <= 17472 * 17472) by (apply Hsq; lia).
    rewrite !(scaled_square_exact 5 (T - 2000)) by lia.
    revert Ha. generalize ((T - 2000) ^ 2). intros A Ha.
    assert (Hq4 : 0 <= (5 * A) `quot` 4 <= 2 ^ 31)
      by (clear - Ha; Z.to_euclidean_division_equations; lia).
    assert (Hq2 : 0 <= (5 * A) `quot` 2 <= 2 ^ 31)
      by (clear - Ha; Z.to_euclidean_division_equations; lia).
    strip_int64 D1. rewrite !Z.add_0_r.
    apply pressure_exact; [assumption | lia | lia].
  - strip_int64 D1.
    apply pressure_exact; [assumption | lia | lia].
Qed.

(** -154.72 degrees C is the exact bound: one hundredth of a degree lower,
    [11 * (TEMP + 1500)^2] no longer fits 32 bits. *)
Example second_order_overflow_threshold :
  is_int32 (11 * ((-15472 + 1500) * (-15472 + 1500)))
  /\ ~ is_int32 (11 * ((-15473 + 1500) * (-15473 + 1500))).
Proof. unfold is_int32. lia. Qed.

(** C2: [readPressure] with compensation departs from the formula where the
    32-bit products of the second-order terms overflow.  With the datasheet
    coefficients, D1 = 9085695 and D2 = 255 the formula gives TEMP = -26912
    and P = -361623; the code returns 151588. *)
Theorem readPressure_compensation_overflow :
  let C := datasheet_coefficients in
  let s := sample_state C (D1_short ++ D2_zero) in
  run readRawPressure s = 9085695
  /\ run readRawTemperature (exec readRawPressure s) = 255
  /\ Formula.TEMP C 255 = -26912
  /\ Formula.P C 9085695 255 true = -361623
  /\ run (readPressure true) s = 151588.
Proof. cbv zeta. repeat split; vm_compute; reflexivity. Qed.

(** ** The worked example of the data sheet *)

(** C3, as stated, fails: with the coefficient set of the datasheet and
    D2 = 9963778 the uncompensated temperature is not within one degree of
    20.01 degrees C, and with D1 = 9085466 the uncompensated pressure is not
    within 1000 Pa of 100009 Pa. *)
Lemma example_D2_9963778_not_20_01 :
  let C := datasheet_coefficients in
  let sT := sample_state C D2_example in
  let sP := sample_state C (D1_example ++ D2_example) in
  run readRawTemperature sT = 9963778
  /\ run readRawPressure sP = 9085466
  /\ run readRawTemperature (exec readRawPressure sP) = 9963778
  /\ ~ (Qabs (run (readTemperature false) sT - 20.01) <= 1)%Q
  /\ ~ (Z.abs (run (readPressure false) sP - 100009) <= 1000).
Proof.
  cbv zeta. repeat split; try (vm_compute; reflexivity).
  - vm_compute. intros H. apply H. reflexivity.
  - vm_compute. intros H. apply H. reflexivity.
Qed.

(** C3, amended: with the coefficient set of the datasheet, D2 = 9963778 and
    D1 = 9085466 the uncompensated results are 67.14 degrees C and 109061 Pa;
    with the D2 of the datasheet's worked example, 8569150, they are 20.07
    degrees C and 100009 Pa. *)
Theorem example_values :
  let C := datasheet_coefficients in
  run readRawTemperature (sample_state C D2_example) = 9963778
  /\ run readRawPressure (sample_state C (D1_example ++ D2_example)) = 9085466
  /\ run (readTemperature false) (sample_state C D2_example) = Qmake 6714 100
  /\ run (readPressure false) (sample_state C (D1_example ++ D2_example))
     = 109061
  /\ run readRawTemperature (sample_state C D2_datasheet) = 8569150
  /\ run (readTemperature false) (sample_state C D2_datasheet)
     = Qmake 2007 100
  /\ run (readPressure false) (sample_state C (D1_example ++ D2_datasheet))
     = 100009.
Proof. cbv zeta. repeat split; vm_compute; reflexivity. Qed.

(** ** Width of the second-order terms *)

(** C4: the squares of the second-order corrections are not evaluated in 64
    bits.  [dT * dT] and [5 * (TEMP - 2000)^2] exceed the 32-bit range at the
    inputs below (they fit 64 bits), and the values the code stores in
    [temperature2], [offset2] and [sensitivity2] are not the exact ones:
    0 for 149, and 167696624 and -772095848 for 6610147568 and 4596613272.
    The results returned differ accordingly. *)
Theorem second_order_terms_overflow_32_bits :
  let C := datasheet_coefficients in
  let sT := sample_state C D2_cold in
  let sP := sample_state C (D1_short ++ D2_zero) in
  let dT := Formula.dT C 8000255 in
  let T := Formula.TEMP C 255 in
  (~ is_int32 (dT * dT) /\ is_int64 (dT * dT)
   /\ to_int32 (dT * dT) <> dT * dT
   /\ Formula.T2 C 8000255 = 149
   /\ temperature2 (self (exec (readTemperature true) sT)) = 0
   /\ run (readTemperature true) sT <> Formula.temperature C 8000255 true)
  /\ (~ is_int32 (5 * ((T - 2000) * (T - 2000)))
      /\ is_int64 (5 * ((T - 2000) * (T - 2000)))
      /\ Formula.OFF2 T = 6610147568
      /\ Formula.SENS2 T = 4596613272
      /\ offset2 (self (exec (readPressure true) sP)) = 167696624
      /\ sensitivity2 (self (exec (readPressure true) sP)) = -772095848
      /\ run (readPressure true) sP <> Formula.P C 9085695 255 true).
Proof.
  cbv zeta.
  replace (Formula.dT datasheet_coefficients 8000255) with (-566529)
    by (vm_compute; reflexivity).
  replace (Formula.TEMP datasheet_coefficients 255) with (-26912)
    by (vm_compute; reflexivity).
  unfold is_int32, is_int64.
  repeat split; try lia; try (vm_compute; reflexivity);
    try (vm_compute; discriminate).
Qed.

(** * The altitude functions *)

(** ** Division in [double] *)

Lemma float_literals :
  literal_1_0f = float_to_double (float_of_decimal 1 1)
  /\ literal_44330_0f = float_to_double (float_of_decimal 44330 1)
  /\ literal_0_1902949f = float_to_double (float_of_decimal 1902949 10000000)
  /\ literal_5_255f = float_to_double (float_of_decimal 5255 1000)
  /\ seaLevelPressure_default
     = binary_normalize double_prec double_emax 101325 0 false.
Proof. repeat split; vm_compute; reflexivity. Qed.








(** ** The two functions at equal pressures and at an underflowing quotient *)








(** * Further properties of the driver *)

(** ** 16-bit register read *)

(** X1: [readRegister16] writes the register address, requests two bytes and
    reads two; the result is the big-endian value [high * 256 + low] of the
    two bytes, a 16-bit value whatever the bus answers, and the driver object
    is left as it was. *)
Theorem readRegister16_big_endian (reg : Z) (s : State) :
  let high :=
    to_uint8 (answer (wire s)
                (calls (wire s) ++ register_select reg
                 ++ [CallRequestFrom MS5611_ADDRESS 2])) in
  let low :=
    to_uint8 (answer (wire s)
                (calls (wire s) ++ register_select reg
                 ++ [CallRequestFrom MS5611_ADDRESS 2; CallRead])) in
  run (readRegister16 reg) s = high * 256 + low
  /\ is_uint16 (run (readRegister16 reg) s)
  /\ calls (wire (exec (readRegister16 reg) s))
     = calls (wire s)
       ++ [CallBeginTransmission MS5611_ADDRESS; CallWrite (to_uint8 reg);
           CallEndTransmission;
           CallRequestFrom MS5611_ADDRESS 2; CallRead; CallRead]
  /\ answer (wire (exec (readRegister16 reg) s)) = answer (wire s)
  /\ self (exec (readRegister16 reg) s) = self s.
Proof.
  cbv zeta. unfold run, exec. rewrite readRegister16_eq. cbn [fst snd].
  unfold register16_bytes. cbv zeta.
  rewrite <- !app_assoc. cbn [app].
  split; [apply combine16_add; apply to_uint8_range |].
  split; [apply combine16_range; apply to_uint8_range |].
  repeat split.
Qed.

(** ** 24-bit register read on an empty receive buffer *)

(** X2: [readRegister24] does not test what [Wire.read()] returns.  When the
    third read finds the receive buffer empty and answers -1, the low byte of
    the result is 0xFF: the result is [byte0 * 65536 + byte1 * 256 + 255]. *)
Theorem readRegister24_empty_buffer (reg : Z) (s : State) :
  let requested :=
    calls (wire s) ++ register_select reg
    ++ [CallRequestFrom MS5611_ADDRESS 2] in
  answer (wire s) (requested ++ [CallRead; CallRead]) = -1 ->
  run (readRegister24 reg) s
  = to_uint8 (answer (wire s) requested) * 65536
    + to_uint8 (answer (wire s) (requested ++ [CallRead])) * 256
    + 255.
Proof.
  cbv zeta. intros Hempty.
  unfold run. rewrite readRegister24_eq. cbn [fst].
  unfold register24_bytes. cbv zeta.
  rewrite <- !app_assoc in *. cbn [app] in *.
  rewrite combine24_add by apply to_uint8_range.
  rewrite Hempty. reflexivity.
Qed.

Lemma readRegister24_empty_buffer_witness :
  let s := sample_state datasheet_coefficients [0x82; 0xC1] in
  answer (wire s)
    ((calls (wire s) ++ register_select MS5611_ADC_READ
      ++ [CallRequestFrom MS5611_ADDRESS 2]) ++ [CallRead; CallRead]) = -1
  /\ run (readRegister24 MS5611_ADC_READ) s = 0x82C1FF.
Proof.
  intros s. split; [reflexivity |].
  rewrite (readRegister24_empty_buffer MS5611_ADC_READ s eq_refl).
  reflexivity.
Defined.

(** ** Configuration *)

Lemma with_counter_same (d : MS5611) : with_counter (counter d) d = d.
Proof. destruct d. reflexivity. Qed.

Lemma setOversampling_eq (v : Z) (s : State) :
  setOversampling v s
  = (tt, mkState (with_userOversamplingRate (to_uint8 v)
                    (with_counter (conversion_delay v (counter (self s)))
                                  (self s)))
                 (wire s)).
Proof.
  unfold setOversampling, conversion_delay, bind.
  repeat match goal with
         | |- context [?a =? ?b] => destruct (a =? b); [reflexivity |]
         end.
  cbn. rewrite with_counter_same. reflexivity.
Qed.

Lemma conversion_delay_osr (v old old' : Z) :
  is_osr v -> conversion_delay v old = conversion_delay v old'.
Proof.
  intros [-> | [-> | [-> | [-> | ->]]]]; reflexivity.
Qed.

Lemma conversion_delay_twice (v old : Z) :
  conversion_delay v (conversion_delay v old) = conversion_delay v old.
Proof.
  unfold conversion_delay.
  repeat match goal with
         | |- context [?a =? ?b] => destruct (a =? b); [reflexivity |]
         end.
  reflexivity.
Qed.

(** X3: setting the oversampling rate twice is the same as setting it once,
    for every value, enumerator or not: the second call changes nothing. *)
Theorem setOversampling_idempotent (v : Z) (s : State) :
  exec (setOversampling v) (exec (setOversampling v) s)
  = exec (setOversampling v) s.
Proof.
  unfold exec. rewrite !setOversampling_eq. cbn.
  rewrite conversion_delay_twice. reflexivity.
Qed.

(** X4: the last valid setting wins: after [setOversampling b] with one of
    the five enumerators nothing of an earlier [setOversampling a] is left,
    whatever [a] was. *)
Theorem setOversampling_last_wins (a b : Z) (s : State) :
  is_osr b ->
  exec (setOversampling b) (exec (setOversampling a) s)
  = exec (setOversampling b) s.
Proof.
  intros Hb. unfold exec. rewrite !setOversampling_eq. cbn.
  rewrite (conversion_delay_osr b _ (counter (self s)) Hb). reflexivity.
Qed.

Lemma setOversampling_last_wins_witness :
  let s := sample_state datasheet_coefficients [] in
  is_osr ULTRA_HIGH_RES
  /\ exec (setOversampling ULTRA_HIGH_RES) (exec (setOversampling 0x0A) s)
     = exec (setOversampling ULTRA_HIGH_RES) s
  /\ counter (self (exec (setOversampling ULTRA_HIGH_RES) s)) = 10.
Proof.
  intros s.
  assert (H : is_osr ULTRA_HIGH_RES) by (right; right; right; right; reflexivity).
  split; [exact H |].
  split; [apply (setOversampling_last_wins 0x0A ULTRA_HIGH_RES s H) |].
  reflexivity.
Defined.

(** X5: [getOversampling] returns what [setOversampling] was last given,
    reduced to a [uint8_t]; [setOversampling] makes no bus call and leaves
    the coefficients and the scratch members alone. *)
Theorem setOversampling_getOversampling (v : Z) (s : State) :
  let s' := exec (setOversampling v) s in
  run getOversampling s' = v mod 256
  /\ wire s' = wire s
  /\ filterCoefficient (self s') = filterCoefficient (self s)
  /\ temperature2 (self s') = temperature2 (self s)
  /\ offset2 (self s') = offset2 (self s)
  /\ sensitivity2 (self s') = sensitivity2 (self s).
Proof.
  cbv zeta. unfold exec. rewrite setOversampling_eq. cbn.
  repeat split.
  unfold to_uint8, wrap_unsigned. change (2 ^ 8) with 256.
  apply Z.mod_mod. lia.
Qed.

(** ** Calibration load and initialization *)

Lemma getCalibrationData_eq (s : State) :
  getCalibrationData s
  = (tt, mkState (with_filterCoefficient (loaded_coefficients s) (self s))
                 (wire (after (prom_calls 6) s))).
Proof.
  destruct s as [d [cs a]].
  unfold getCalibrationData. rewrite for_uint8_six.
  unfold bind, field, assign, ret.
  repeat (rewrite readRegister16_eq; cbv beta iota).
  cbn [snd self wire after filterCoefficient with_filterCoefficient calls
       answer].
  change (to_uint8 (MS5611_READ_PROM + 0 * 2))
    with (MS5611_READ_PROM + 2 * Z.of_nat 0).
  change (to_uint8 (MS5611_READ_PROM + 1 * 2))
    with (MS5611_READ_PROM + 2 * Z.of_nat 1).
  change (to_uint8 (MS5611_READ_PROM + 2 * 2))
    with (MS5611_READ_PROM + 2 * Z.of_nat 2).
  change (to_uint8 (MS5611_READ_PROM + 3 * 2))
    with (MS5611_READ_PROM + 2 * Z.of_nat 3).
  change (to_uint8 (MS5611_READ_PROM + 4 * 2))
    with (MS5611_READ_PROM + 2 * Z.of_nat 4).
  change (to_uint8 (MS5611_READ_PROM + 5 * 2))
    with (MS5611_READ_PROM + 2 * Z.of_nat 5).
  unfold loaded_coefficients, prom_word, prom_calls.
  cbn [foldl seq concat map self wire calls answer filterCoefficient].
  rewrite <- !app_assoc, !app_nil_r.
  reflexivity.
Qed.

Lemma prom_word_range (s : State) (k : nat) : is_uint16 (prom_word s k).
Proof.
  unfold prom_word, register16_bytes. cbv zeta.
  apply combine16_range; apply to_uint8_range.
Qed.

Lemma loaded_coefficients_six (s : State) :
  length (filterCoefficient (self s)) = 6%nat ->
  loaded_coefficients s = map (prom_word s) (seq 0 6).
Proof.
  unfold loaded_coefficients.
  destruct (filterCoefficient (self s)) as [| c0 C]; [discriminate |].
  do 5 (destruct C as [| ? C]; [discriminate |]).
  destruct C; [| discriminate].
  intros _. reflexivity.
Qed.

Lemma loaded_coefficients_range (s : State) :
  length (filterCoefficient (self s)) = 6%nat ->
  Forall is_uint16 (loaded_coefficients s).
Proof.
  intros H. rewrite loaded_coefficients_six by exact H.
  apply Forall_map, Forall_forall. intros k _. apply prom_word_range.
Qed.

(** X6: after a calibration load every stored coefficient is a 16-bit value
    and the array still has six slots, whatever the bus answered. *)
Theorem getCalibrationData_coefficients_16bit (s : State) :
  length (filterCoefficient (self s)) = 6%nat ->
  let C' := filterCoefficient (self (exec getCalibrationData s)) in
  Forall is_uint16 C' /\ length C' = 6%nat.
Proof.
  intros H. cbv zeta. unfold exec. rewrite getCalibrationData_eq.
  cbn [snd self filterCoefficient with_filterCoefficient].
  split; [apply loaded_coefficients_range; exact H |].
  rewrite loaded_coefficients_six by exact H. reflexivity.
Qed.

Lemma getCalibrationData_coefficients_16bit_witness :
  let s := sample_state [1; 2; 3; 4; 5; 6] [] in
  length (filterCoefficient (self s)) = 6%nat
  /\ Forall is_uint16 (filterCoefficient (self (exec getCalibrationData s)))
  /\ filterCoefficient (self (exec getCalibrationData s))
     = [0xFFFF; 0xFFFF; 0xFFFF; 0xFFFF; 0xFFFF; 0xFFFF].
Proof.
  intros s. split; [reflexivity |].
  split; [apply (getCalibrationData_coefficients_16bit s eq_refl) |].
  reflexivity.
Defined.

(** X7: a calibration load forgets the coefficients stored before it: two
    driver objects that differ only in their six coefficients are equal
    after the load. *)
Theorem getCalibrationData_forgets_old (C' : list Z) (s : State) :
  length (filterCoefficient (self s)) = 6%nat ->
  length C' = 6%nat ->
  exec getCalibrationData
       (mkState (with_filterCoefficient C' (self s)) (wire s))
  = exec getCalibrationData s.
Proof.
  intros H H'. unfold exec. rewrite !getCalibrationData_eq.
  cbn [snd]. rewrite !loaded_coefficients_six by assumption.
  destruct s as [d w]. destruct d. reflexivity.
Qed.

Lemma getCalibrationData_forgets_old_witness :
  let s := sample_state datasheet_coefficients [0x9C; 0xBF; 0x90; 0x3C] in
  length (filterCoefficient (self s)) = 6%nat
  /\ length [1; 2; 3; 4; 5; 6] = 6%nat
  /\ exec getCalibrationData
          (mkState (with_filterCoefficient [1; 2; 3; 4; 5; 6] (self s)) (wire s))
     = exec getCalibrationData s.
Proof.
  intros s. split; [reflexivity |]. split; [reflexivity |].
  apply (getCalibrationData_forgets_old [1; 2; 3; 4; 5; 6] s eq_refl eq_refl).
Defined.

Lemma begin_eq (osr : Z) (s : State) :
  begin osr s
  = (true,
     exec getCalibrationData
       (mkState (with_userOversamplingRate (to_uint8 osr)
                   (with_counter (conversion_delay osr (counter (self s)))
                                 (self s)))
                (wire (after reset_calls s)))).
Proof.
  destruct s as [d [cs a]].
  unfold begin, bind, exec.
  unfold Wire_begin, performReset, bind, Wire_beginTransmission, Wire_write,
    Wire_endTransmission, delay, log_call.
  cbn [self wire calls answer].
  rewrite setOversampling_eq. cbn [self wire calls answer].
  unfold after, reset_calls. cbn [self wire calls answer].
  rewrite <- !app_assoc. cbn [app].
  destruct (getCalibrationData _) as [[] s']. reflexivity.
Qed.

(** X8: [begin] talks to the bus in a fixed order, whatever the oversampling
    argument and whatever the bus answers: [Wire.begin()], the reset command
    0x1E to address 0x77, a delay of 100, then the six PROM word reads.  It
    starts no conversion and reads no ADC result. *)
Theorem begin_calls (osr : Z) (s : State) :
  calls (wire (exec (begin osr) s))
  = calls (wire s)
    ++ [CallBegin;
        CallBeginTransmission 0x77; CallWrite 0x1E; CallEndTransmission;
        CallDelay 100]
    ++ register16_calls 0xA2 ++ register16_calls 0xA4
    ++ register16_calls 0xA6 ++ register16_calls 0xA8
    ++ register16_calls 0xAA ++ register16_calls 0xAC
  /\ answer (wire (exec (begin osr) s)) = answer (wire s).
Proof.
  unfold exec. rewrite begin_eq. cbn [snd].
  unfold exec. rewrite getCalibrationData_eq.
  cbn [snd wire after calls answer self].
  split; [| reflexivity].
  unfold reset_calls, prom_calls. cbn [concat map seq].
  rewrite <- !app_assoc, app_nil_r. reflexivity.
Qed.

(** X9: after [begin] with one of the five enumerators on a driver object
    with its six coefficient slots, [getOversampling] returns the enumerator,
    the settling delay is the one [setOversampling] gives it, the six
    coefficients are 16-bit values, and the scratch members are untouched. *)
Theorem begin_configures (osr : Z) (s : State) :
  is_osr osr ->
  length (filterCoefficient (self s)) = 6%nat ->
  let s' := exec (begin osr) s in
  run getOversampling s' = osr
  /\ counter (self s') = counter (self (exec (setOversampling osr) s))
  /\ 1 <= counter (self s') <= 10
  /\ Forall is_uint16 (filterCoefficient (self s'))
  /\ length (filterCoefficient (self s')) = 6%nat
  /\ temperature2 (self s') = temperature2 (self s)
  /\ offset2 (self s') = offset2 (self s)
  /\ sensitivity2 (self s') = sensitivity2 (self s).
Proof.
  intros Hosr HC. cbv zeta.
  unfold exec. rewrite begin_eq. cbn [snd].
  unfold exec. rewrite getCalibrationData_eq, setOversampling_eq.
  cbn [snd self wire filterCoefficient counter userOversamplingRate
       temperature2 offset2 sensitivity2 with_filterCoefficient with_counter
       with_userOversamplingRate].
  split.
  { unfold run, getOversampling, bind, field, ret.
    cbn [fst self userOversamplingRate with_filterCoefficient].
    destruct Hosr as [-> | [-> | [-> | [-> | ->]]]]; reflexivity. }
  split; [reflexivity |].
  split.
  { destruct Hosr as [-> | [-> | [-> | [-> | ->]]]]; cbn; lia. }
  split.
  { apply loaded_coefficients_range. exact HC. }
  split.
  { rewrite loaded_coefficients_six by exact HC. reflexivity. }
  repeat split.
Qed.

Lemma begin_configures_witness :
  let s := sample_state [0; 0; 0; 0; 0; 0]
             [0x9C; 0xBF; 0x90; 0x3C; 0x5B; 0x15; 0x5A; 0xF2; 0x82; 0xB8;
              0x6E; 0x98] in
  is_osr ULTRA_LOW_POWER
  /\ length (filterCoefficient (self s)) = 6%nat
  /\ run getOversampling (exec (begin ULTRA_LOW_POWER) s) = ULTRA_LOW_POWER
  /\ filterCoefficient (self (exec (begin ULTRA_LOW_POWER) s))
     = datasheet_coefficients.
Proof.
  intros s.
  assert (H : is_osr ULTRA_LOW_POWER) by (left; reflexivity).
  split; [exact H |]. split; [reflexivity |].
  split; [apply (begin_configures ULTRA_LOW_POWER s H eq_refl) |].
  reflexivity.
Defined.

(** ** Raw samples *)

(** X10: a raw read returns a 24-bit value and changes nothing in the driver
    object, for both kinds and whatever the bus answers. *)
Theorem readRaw_frame (s : State) :
  (is_uint24 (run readRawTemperature s)
   /\ self (exec readRawTemperature s) = self s
   /\ answer (wire (exec readRawTemperature s)) = answer (wire s))
  /\ (is_uint24 (run readRawPressure s)
      /\ self (exec readRawPressure s) = self s
      /\ answer (wire (exec readRawPressure s)) = answer (wire s)).
Proof.
  destruct (readRawTemperature_after s) as [HT HTr].
  destruct (readRawPressure_after s) as [HP HPr].
  unfold exec. rewrite HT, HP. cbn [snd].
  repeat split; first [apply HTr | apply HPr].
Qed.

(** ** Temperature, continued *)

Lemma datasheet_coefficients_range : Forall is_uint16 datasheet_coefficients.
Proof.
  unfold datasheet_coefficients.
  repeat (constructor; [unfold is_uint16; lia |]). constructor.
Qed.

(** X11: for 16-bit coefficients [readTemperature] returns the base
    temperature [2000 + dT * C5 / 2^23] of the formula, divided by 100, for
    either value of the compensation flag. *)
Theorem readTemperature_formula (compensation : bool) (s : State) :
  let C := filterCoefficient (self s) in
  Forall is_uint16 C ->
  run (readTemperature compensation) s
  = Qmake (2000 + ((run readRawTemperature s - C !!! 4%nat * 256)
                   * C !!! 5%nat) `quot` 8388608) 100.
Proof.
  cbv zeta. intros HC.
  assert (Hflag : run (readTemperature compensation) s
                  = run (readTemperature false) s).
  { destruct compensation; [| reflexivity].
    unfold run. rewrite readTemperature_flag_ignored. reflexivity. }
  rewrite Hflag, (readTemperature_uncompensated s HC).
  unfold Formula.temperature, Formula.TEMP, Formula.dT. reflexivity.
Qed.

Lemma readTemperature_formula_witness :
  let s := sample_state datasheet_coefficients D2_cold in
  Forall is_uint16 (filterCoefficient (self s))
  /\ run (readTemperature true) s = Qmake 88 100.
Proof.
  intros s.
  assert (HC : Forall is_uint16 (filterCoefficient (self s)))
    by exact datasheet_coefficients_range.
  split; [exact HC |].
  rewrite (readTemperature_formula true s HC). reflexivity.
Defined.

(** X12: [readTemperature] starts exactly one temperature conversion and one
    ADC read, and of the driver object it changes only the scratch member
    [temperature2], which it leaves at 0 for either value of the flag. *)
Theorem readTemperature_effect (compensation : bool) (s : State) :
  let s' := exec (readTemperature compensation) s in
  calls (wire s')
  = calls (wire s)
    ++ [CallBeginTransmission MS5611_ADDRESS;
        CallWrite (to_uint8 (MS5611_CONV_D2 + userOversamplingRate (self s)));
        CallEndTransmission; CallDelay (counter (self s));
        CallBeginTransmission MS5611_ADDRESS; CallWrite MS5611_ADC_READ;
        CallEndTransmission;
        CallRequestFrom MS5611_ADDRESS 2; CallRead; CallRead; CallRead]
  /\ self s' = with_temperature2 0 (self s).
Proof.
  cbv zeta.
  assert (Hflag : exec (readTemperature compensation) s
                  = exec (readTemperature false) s).
  { destruct compensation; [| reflexivity].
    unfold exec. rewrite readTemperature_flag_ignored. reflexivity. }
  rewrite Hflag. unfold exec, readTemperature, bind.
  rewrite (proj1 (readRawTemperature_after s)).
  destruct s as [d [cs a]]. cbn. split; reflexivity.
Qed.

(** ** Pressure, continued *)

(** X13: for 16-bit coefficients [readPressure] returns the pressure of the
    formula, [(D1 * SENS / 2^21 - OFF) / 2^15]: without compensation for
    every raw sample the bus can deliver, with compensation whenever the base
    temperature is at least -154.72 degrees C. *)
Theorem readPressure_formula (compensation : bool) (s : State) :
  let C := filterCoefficient (self s) in
  let D1 := run readRawPressure s in
  let D2 := run readRawTemperature (exec readRawPressure s) in
  Forall is_uint16 C ->
  (compensation = true -> -15472 <= Formula.TEMP C D2) ->
  run (readPressure compensation) s = Formula.P C D1 D2 compensation.
Proof.
  cbv zeta. intros HC HT. destruct compensation.
  - apply (readPressure_compensated s HC (HT eq_refl)).
  - apply (readPressure_uncompensated s HC).
Qed.

(** X14: from 20.00 degrees C upward the second-order compensation of
    [readPressure] changes nothing: the compensated and the uncompensated
    call return the same pressure. *)
Theorem readPressure_warm (s : State) :
  let C := filterCoefficient (self s) in
  let D2 := run readRawTemperature (exec readRawPressure s) in
  Forall is_uint16 C ->
  2000 <= Formula.TEMP C D2 ->
  run (readPressure true) s = run (readPressure false) s.
Proof.
  cbv zeta. intros HC HT.
  rewrite (readPressure_compensated s HC) by lia.
  rewrite (readPressure_uncompensated s HC).
  unfold Formula.P, Formula.OFF2, Formula.SENS2.
  destruct (Z.ltb_spec
              (Formula.TEMP (filterCoefficient (self s))
                 (run readRawTemperature (exec readRawPressure s))) 2000)
    as [Hlt | _]; [lia |].
  rewrite !Z.sub_0_r. reflexivity.
Qed.

Lemma readPressure_formula_witness :
  let s := sample_state datasheet_coefficients (D1_example ++ D2_cold) in
  let C := filterCoefficient (self s) in
  let D2 := run readRawTemperature (exec readRawPressure s) in
  Forall is_uint16 C
  /\ -15472 <= Formula.TEMP C D2
  /\ Formula.TEMP C D2 = 88
  /\ run (readPressure true) s = 95991.
Proof.
  intros s C D2.
  assert (HT : -15472 <= Formula.TEMP C D2) by (vm_compute; discriminate).
  split; [exact datasheet_coefficients_range |].
  split; [exact HT |]. split; [reflexivity |].
  rewrite (readPressure_formula true s datasheet_coefficients_range
             (fun _ => HT)).
  reflexivity.
Defined.

Lemma readPressure_warm_witness :
  let s := sample_state datasheet_coefficients (D1_example ++ D2_datasheet) in
  let C := filterCoefficient (self s) in
  let D2 := run readRawTemperature (exec readRawPressure s) in
  Forall is_uint16 C
  /\ 2000 <= Formula.TEMP C D2
  /\ run (readPressure true) s = 100009.
Proof.
  intros s C D2.
  assert (HT : 2000 <= Formula.TEMP C D2) by (vm_compute; discriminate).
  split; [exact datasheet_coefficients_range |].
  split; [exact HT |].
  rewrite (readPressure_warm s datasheet_coefficients_range HT).
  reflexivity.
Defined.

(** X15: [readPressure] converts and reads the pressure first and the
    temperature second, with the same calls for either value of the flag.
    It never changes the coefficients, the oversampling members or
    [temperature2]; without compensation it changes nothing in the driver
    object. *)
Theorem readPressure_effect (s : State) :
  (forall compensation : bool,
     let s' := exec (readPressure compensation) s in
     calls (wire s')
     = calls (wire s)
       ++ conversion_calls
            (to_uint8 (MS5611_CONV_D1 + userOversamplingRate (self s)))
            (counter (self s))
       ++ register24_calls MS5611_ADC_READ
       ++ conversion_calls
            (to_uint8 (MS5611_CONV_D2 + userOversamplingRate (self s)))
            (counter (self s))
       ++ register24_calls MS5611_ADC_READ
     /\ filterCoefficient (self s') = filterCoefficient (self s)
     /\ counter (self s') = counter (self s)
     /\ userOversamplingRate (self s') = userOversamplingRate (self s)
     /\ temperature2 (self s') = temperature2 (self s))
  /\ self (exec (readPressure false) s) = self s.
Proof.
  destruct (readRawPressure_after s) as [HP _].
  destruct (readRawTemperature_after
              (after (raw_calls MS5611_CONV_D1 (self s)) s)) as [HT _].
  split.
  - intros compensation. cbv zeta.
    unfold exec, readPressure, bind. rewrite HP. cbv beta iota.
    rewrite HT. cbv beta iota.
    unfold field at 1. cbv beta iota.
    destruct compensation.
    + unfold when, assign, field, ret.
      repeat match goal with
             | |- context [if ?b then _ else _] => destruct b
             end;
        cbn [fst snd self wire after calls filterCoefficient counter
             userOversamplingRate temperature2 with_offset2
             with_sensitivity2];
        (split; [unfold raw_calls; rewrite <- ?app_assoc; reflexivity
                | repeat split]).
    + unfold ret. cbn [fst snd self wire after calls].
      split; [unfold raw_calls; rewrite <- ?app_assoc; reflexivity
             | repeat split].
  - unfold exec, readPressure, bind. rewrite HP. cbv beta iota.
    rewrite HT. cbv beta iota. reflexivity.
Qed.

(** ** Shape of the compensated values *)

Lemma readTemperature_run_flag (compensation : bool) (s : State) :
  run (readTemperature compensation) s = run (readTemperature false) s.
Proof.
  destruct compensation; [| reflexivity].
  unfold run. rewrite readTemperature_flag_ignored. reflexivity.
Qed.

Lemma readTemperature_value (compensation : bool) (s : State) :
  Forall is_uint16 (filterCoefficient (self s)) ->
  run (readTemperature compensation) s
  = Qmake (Formula.TEMP (filterCoefficient (self s))
                        (run readRawTemperature s)) 100.
Proof.
  intros HC.
  rewrite readTemperature_run_flag, (readTemperature_uncompensated s HC).
  reflexivity.
Qed.

(** X16: when the raw temperature sample equals the reference value
    [C4 * 256], [readTemperature] returns 20.00 degrees C, whatever the
    temperature coefficient [C5] is. *)
Theorem readTemperature_reference_point (compensation : bool) (s : State) :
  let C := filterCoefficient (self s) in
  Forall is_uint16 C ->
  run readRawTemperature s = C !!! 4%nat * 256 ->
  run (readTemperature compensation) s = Qmake 2000 100.
Proof.
  cbv zeta. intros HC HD.
  rewrite (readTemperature_value compensation s HC).
  unfold Formula.TEMP, Formula.dT. rewrite HD.
  rewrite Z.sub_diag, Z.mul_0_l, Z.quot_0_l by lia. reflexivity.
Qed.

Lemma readTemperature_reference_point_witness :
  let s := sample_state datasheet_coefficients [0x82; 0xB8; 0x00] in
  Forall is_uint16 (filterCoefficient (self s))
  /\ run readRawTemperature s = filterCoefficient (self s) !!! 4%nat * 256
  /\ run (readTemperature false) s = Qmake 2000 100.
Proof.
  intros s. split; [exact datasheet_coefficients_range |].
  split; [reflexivity |].
  apply (readTemperature_reference_point false s datasheet_coefficients_range
           eq_refl).
Defined.

(** X17: [readTemperature] is monotone in the raw sample: with the same
    16-bit coefficients, a raw sample that is not smaller gives a
    temperature that is not lower. *)
Theorem readTemperature_monotone (flag flag' : bool) (s s' : State) :
  filterCoefficient (self s') = filterCoefficient (self s) ->
  Forall is_uint16 (filterCoefficient (self s)) ->
  run readRawTemperature s <= run readRawTemperature s' ->
  (run (readTemperature flag) s <= run (readTemperature flag') s')%Q.
Proof.
  intros HCC HC HD.
  assert (HC' : Forall is_uint16 (filterCoefficient (self s')))
    by (rewrite HCC; exact HC).
  rewrite (readTemperature_value flag s HC),
    (readTemperature_value flag' s' HC'), HCC.
  pose proof (coefficient_range _ 5 HC) as H5. unfold is_uint16 in H5.
  unfold Formula.TEMP, Formula.dT, Qle. cbn [Qnum Qden].
  apply Z.mul_le_mono_nonneg_r; [lia |].
  apply Z.add_le_mono_l, Z.quot_le_mono; [lia |].
  apply Z.mul_le_mono_nonneg_r; lia.
Qed.

Lemma readTemperature_monotone_witness :
  let s := sample_state datasheet_coefficients D2_cold in
  let s' := sample_state datasheet_coefficients D2_datasheet in
  filterCoefficient (self s') = filterCoefficient (self s)
  /\ Forall is_uint16 (filterCoefficient (self s))
  /\ run readRawTemperature s <= run readRawTemperature s'
  /\ (run (readTemperature true) s <= run (readTemperature false) s')%Q.
Proof.
  intros s s'.
  assert (HD : run readRawTemperature s <= run readRawTemperature s')
    by (vm_compute; discriminate).
  split; [reflexivity |].
  split; [exact datasheet_coefficients_range |].
  split; [exact HD |].
  apply (readTemperature_monotone true false s s' eq_refl
           datasheet_coefficients_range HD).
Defined.

(** X18: for 16-bit coefficients the temperature returned lies within
    1310.72 degrees of 20.00 degrees C: the numerator of the result is
    between -129072 and 133072 and its denominator is 100. *)
Theorem readTemperature_range (compensation : bool) (s : State) :
  Forall is_uint16 (filterCoefficient (self s)) ->
  -129072 <= Qnum (run (readTemperature compensation) s) <= 133072
  /\ Qden (run (readTemperature compensation) s) = 100%positive.
Proof.
  intros HC. rewrite (readTemperature_value compensation s HC).
  cbn [Qnum Qden]. split; [| reflexivity].
  destruct (readRawTemperature_after s) as [_ HD].
  pose proof (coefficient_range _ 4 HC) as H4.
  pose proof (coefficient_range _ 5 HC) as H5.
  assert (HdT : - 2 ^ 24 < run readRawTemperature s
                           - filterCoefficient (self s) !!! 4%nat * 256
                < 2 ^ 24)
    by (unfold is_uint16, is_uint24 in *; lia).
  unfold Formula.TEMP, Formula.dT. unfold is_uint16 in H5.
  revert HdT H5.
  generalize (run readRawTemperature s
              - filterCoefficient (self s) !!! 4%nat * 256).
  generalize (filterCoefficient (self s) !!! 5%nat).
  clear. intros c5 dT HdT H5.
  assert (Hp : - 2 ^ 40 <= dT * c5 <= 2 ^ 40) by nia.
  revert Hp. generalize (dT * c5). clear. intros p Hp.
  Z.to_euclidean_division_equations; lia.
Qed.

Lemma readTemperature_range_witness :
  let s := sample_state datasheet_coefficients D2_zero in
  Forall is_uint16 (filterCoefficient (self s))
  /\ -129072 <= Qnum (run (readTemperature false) s) <= 133072
  /\ run (readTemperature false) s = Qmake (-26912) 100.
Proof.
  intros s. split; [exact datasheet_coefficients_range |].
  split; [apply (readTemperature_range false s datasheet_coefficients_range) |].
  reflexivity.
Defined.

(** ** Measurements on unloaded and on freshly loaded coefficients *)

Lemma zero_coefficients_formula (D1 D2 : Z) (compensation : bool) :
  let C := [0; 0; 0; 0; 0; 0] in
  Formula.TEMP C D2 = 2000 /\ Formula.P C D1 D2 compensation = 0.
Proof.
  cbv zeta.
  assert (HT : Formula.TEMP [0; 0; 0; 0; 0; 0] D2 = 2000).
  { unfold Formula.TEMP, Formula.dT. cbn [lookup_total list_lookup_total].
    rewrite Z.mul_0_r. reflexivity. }
  split; [exact HT |].
  unfold Formula.P, Formula.OFF, Formula.SENS. rewrite HT.
  cbn [lookup_total list_lookup_total Formula.OFF2 Formula.SENS2].
  rewrite !Z.mul_0_l. destruct compensation; cbn; rewrite Z.mul_0_r;
    reflexivity.
Qed.

(** X19: a measurement on a driver object whose six coefficients are all
    zero, as before any calibration load of a zero-initialized object, does
    not fail: for every raw sample and either flag it returns 20.00 degrees C
    and 0 Pa. *)
Theorem zero_coefficients_readings (compensation : bool) (s : State) :
  filterCoefficient (self s) = [0; 0; 0; 0; 0; 0] ->
  run (readTemperature compensation) s = Qmake 2000 100
  /\ run (readPressure compensation) s = 0.
Proof.
  intros H0.
  assert (HC : Forall is_uint16 (filterCoefficient (self s))).
  { rewrite H0. repeat (constructor; [unfold is_uint16; lia |]). constructor. }
  split.
  - rewrite (readTemperature_value compensation s HC), H0.
    rewrite (proj1 (zero_coefficients_formula 0 _ false)). reflexivity.
  - destruct compensation.
    + rewrite (readPressure_compensated s HC).
      * rewrite H0. apply zero_coefficients_formula.
      * rewrite H0, (proj1 (zero_coefficients_formula 0 _ false)). lia.
    + rewrite (readPressure_uncompensated s HC), H0.
      apply zero_coefficients_formula.
Qed.

Lemma zero_coefficients_readings_witness :
  let s := sample_state [0; 0; 0; 0; 0; 0] (D1_example ++ D2_example) in
  filterCoefficient (self s) = [0; 0; 0; 0; 0; 0]
  /\ run readRawPressure s = 9085466
  /\ run (readPressure true) s = 0.
Proof.
  intros s. split; [reflexivity |]. split; [reflexivity |].
  apply (zero_coefficients_readings true s eq_refl).
Defined.

Lemma begin_coefficients_range (osr : Z) (s : State) :
  length (filterCoefficient (self s)) = 6%nat ->
  Forall is_uint16 (filterCoefficient (self (exec (begin osr) s))).
Proof.
  intros HC. unfold exec. rewrite begin_eq. cbn [snd].
  unfold exec. rewrite getCalibrationData_eq.
  cbn [snd self filterCoefficient with_filterCoefficient].
  apply loaded_coefficients_range. exact HC.
Qed.

(** X20: after [begin], whatever its argument and whatever the bus answered
    during the calibration load, the measurements follow the formulas on the
    coefficients that were loaded: [readTemperature] for either flag and
    [readPressure] without compensation. *)
Theorem initialized_measurements (osr : Z) (compensation : bool) (s : State) :
  length (filterCoefficient (self s)) = 6%nat ->
  let s' := exec (begin osr) s in
  let C := filterCoefficient (self s') in
  run (readTemperature compensation) s'
  = Qmake (Formula.TEMP C (run readRawTemperature s')) 100
  /\ run (readPressure false) s'
     = Formula.P C (run readRawPressure s')
                 (run readRawTemperature (exec readRawPressure s')) false.
Proof.
  intros H. cbv zeta.
  pose proof (begin_coefficients_range osr s H) as HC.
  split.
  - apply (readTemperature_value compensation _ HC).
  - apply (readPressure_uncompensated _ HC).
Qed.

Lemma initialized_measurements_witness :
  let s := sample_state [0; 0; 0; 0; 0; 0]
             ([0x9C; 0xBF; 0x90; 0x3C; 0x5B; 0x15; 0x5A; 0xF2; 0x82; 0xB8;
               0x6E; 0x98] ++ D1_example ++ D2_datasheet) in
  length (filterCoefficient (self s)) = 6%nat
  /\ filterCoefficient (self (exec (begin HIGH_RES) s)) = datasheet_coefficients
  /\ run (readPressure false) (exec (begin HIGH_RES) s) = 100009.
Proof.
  intros s. split; [reflexivity |]. split; [reflexivity |].
  rewrite (proj2 (initialized_measurements HIGH_RES false s eq_refl)).
  reflexivity.
Defined.

(** X21: without compensation [readPressure] is monotone in the raw pressure
    sample: with the same 16-bit coefficients, the same raw temperature
    sample and a sensitivity [SENS] that is not negative, a raw pressure
    sample that is not smaller gives a pressure that is not lower. *)
Theorem readPressure_monotone (s s' : State) :
  let C := filterCoefficient (self s) in
  let D2 := run readRawTemperature (exec readRawPressure s) in
  filterCoefficient (self s') = C ->
  Forall is_uint16 C ->
  run readRawTemperature (exec readRawPressure s') = D2 ->
  0 <= Formula.SENS C D2 ->
  run readRawPressure s <= run readRawPressure s' ->
  run (readPressure false) s <= run (readPressure false) s'.
Proof.
  cbv zeta. intros HCC HC HD2 HS HD1.
  assert (HC' : Forall is_uint16 (filterCoefficient (self s')))
    by (rewrite HCC; exact HC).
  rewrite (readPressure_uncompensated s HC),
    (readPressure_uncompensated s' HC'), HCC, HD2.
  unfold Formula.P.
  apply Z.quot_le_mono; [lia |].
  apply Z.sub_le_mono_r, Z.quot_le_mono; [lia |].
  apply Z.mul_le_mono_nonneg_r; assumption.
Qed.

Lemma readPressure_monotone_witness :
  let s := sample_state datasheet_coefficients ([0x80; 0x00; 0x00] ++ D2_datasheet) in
  let s' := sample_state datasheet_coefficients (D1_example ++ D2_datasheet) in
  let C := filterCoefficient (self s) in
  let D2 := run readRawTemperature (exec readRawPressure s) in
  filterCoefficient (self s') = C
  /\ Forall is_uint16 C
  /\ run readRawTemperature (exec readRawPressure s') = D2
  /\ 0 <= Formula.SENS C D2
  /\ run readRawPressure s <= run readRawPressure s'
  /\ run (readPressure false) s <= 100009.
Proof.
  intros s s' C D2.
  assert (HS : 0 <= Formula.SENS C D2) by (vm_compute; discriminate).
  assert (HD : run readRawPressure s <= run readRawPressure s')
    by (vm_compute; discriminate).
  split; [reflexivity |]. split; [exact datasheet_coefficients_range |].
  split; [reflexivity |]. split; [exact HS |]. split; [exact HD |].
  exact (readPressure_monotone s s' eq_refl datasheet_coefficients_range
           eq_refl HS HD).
Defined.

(** ** Scratch members *)

Lemma readRawTemperature_scratch (t2 o2 s2 : Z) (s : State) :
  readRawTemperature (with_scratch t2 o2 s2 s)
  = (run readRawTemperature s,
     with_scratch t2 o2 s2 (exec readRawTemperature s)).
Proof.
  unfold run, exec.
  rewrite !readRawTemperature_eq, !readRegister24_eq.
  destruct s as [d [cs a]]. reflexivity.
Qed.

Lemma readRawPressure_scratch (t2 o2 s2 : Z) (s : State) :
  readRawPressure (with_scratch t2 o2 s2 s)
  = (run readRawPressure s,
     with_scratch t2 o2 s2 (exec readRawPressure s)).
Proof.
  unfold run, exec.
  rewrite !readRawPressure_eq, !readRegister24_eq.
  destruct s as [d [cs a]]. reflexivity.
Qed.

(** Reduces the projections of explicit driver objects and states. *)
Ltac reduce_members :=
  cbn [fst snd self wire temperature2 filterCoefficient with_temperature2
       with_offset2 with_sensitivity2 counter userOversamplingRate offset2
       sensitivity2 osr].

(** X22: the measurements never read a stale scratch member: the values that
    [temperature2], [offset2] and [sensitivity2] hold before the call have no
    influence on what [readTemperature] and [readPressure] return, for either
    flag and for all coefficients and samples. *)
Theorem measurements_ignore_scratch
    (compensation : bool) (t2 o2 s2 : Z) (s : State) :
  run (readTemperature compensation) (with_scratch t2 o2 s2 s)
  = run (readTemperature compensation) s
  /\ run (readPressure compensation) (with_scratch t2 o2 s2 s)
     = run (readPressure compensation) s.
Proof.
  split.
  - unfold run, readTemperature, bind.
    rewrite readRawTemperature_scratch.
    destruct (readRawTemperature s) as [D2 s1] eqn:E.
    unfold run, exec. rewrite E. cbn [fst snd].
    destruct s1 as [[C c r t o z e] w].
    unfold when, assign, field, ret, with_scratch; reduce_members.
    change (0 <? 2000) with true. cbv beta iota.
    destruct compensation; reduce_members; reflexivity.
  - unfold run, readPressure, bind.
    rewrite readRawPressure_scratch.
    destruct (readRawPressure s) as [D1 s1] eqn:E1.
    unfold run, exec. rewrite E1. cbn [fst snd].
    rewrite readRawTemperature_scratch.
    destruct (readRawTemperature s1) as [D2 s2'] eqn:E2.
    unfold run, exec. rewrite E2. cbn [fst snd].
    destruct s2' as [[C c r t o z e] w].
    unfold when, assign, field, ret, with_scratch; reduce_members.
    destruct compensation; [| reduce_members; reflexivity].
    repeat match goal with
           | |- context [if ?b then _ else _] => destruct b
           end; reduce_members; reflexivity.
Qed.
